(** * yt-mcp-server: the OAuth token lifecycle and the MCP tool dispatcher

    A shallow embedding of the Go packages [service] (token store, Google
    OAuth session manager, YouTube service) and [api] (MCP handler), with
    the properties the specification states about them.

    Conventions of the embedding:
    - a [*oauth2.Token] is an [option loc]: [None] is Go's [nil], [Some p]
      points into a heap of token objects, so a pointer stored by
      [SetToken] aliases the caller's object and the copy made by
      [GetToken] is a different object;
    - every method of the store runs under the store's mutex, hence as one
      atomic step on the state; interleavings of whole steps are the
      sequential compositions written here;
    - calls that leave the repository are fields of a [World] (the OAuth
      provider, the YouTube API, the clock) or of a [Codec] (encoding/json):
      their results are arbitrary, and each call to the world is recorded in
      the trace of the state. *)

From Stdlib Require Import ZArith Floats.SpecFloat.
From stdpp Require Import gmap strings list fin_maps.

(** ** Go values that cross the packages *)

(** [time.Time] and [time.Duration] in nanoseconds. *)
Definition Time := Z.
Definition Duration := Z.
Definition Second : Duration := 1000000000%Z.
Definition Minute : Duration := (60 * Second)%Z.

(** Go's [error], by its message. *)
Definition error := string.

(** [fmt.Errorf("<msg>: %w", err)] and [fmt.Sprintf("<msg>: %v", err)]. *)
Definition wrapf (msg : string) (err : error) : error := msg +:+ ": " +:+ err.

(** What encoding/json decodes into an [interface{}]: JSON numbers are
    float64, here an IEEE-754 binary64 value. *)
#[warnings="-register-all"]
Inductive value :=
| VNil
| VBool (b : bool)
| VFloat64 (f : spec_float)
| VString (s : string)
| VArray (l : list value)
| VObject (m : gmap string value).

(** The type assertions [v.(string)] and [v.(float64)] in their two-result
    form, on the result of a map index (a missing key is the nil interface). *)
Definition assert_string (v : option value) : string * bool :=
  match v with
  | Some (VString s) => (s, true)
  | _ => (""%string, false)
  end.

Definition assert_float64 (v : option value) : spec_float * bool :=
  match v with
  | Some (VFloat64 f) => (f, true)
  | _ => (S754_zero false, false)
  end.

(** ** golang.org/x/oauth2: the token record *)

Module oauth2.

(** The exported fields, those a caller can assign. *)
Record Token := mkToken {
  AccessToken : string;
  TokenType : string;
  RefreshToken : string;
  Expiry : Time;
}.

#[global] Instance Token_eq_dec : EqDecision Token.
Proof. solve_decision. Defined.

(** The zero value of the struct. *)
#[global] Instance Token_inhabited : Inhabited Token :=
  populate (mkToken "" "" "" 0%Z).

End oauth2.
Export oauth2.

(** ** Package service *)

Module service.

(** Addresses of token objects. *)
Definition loc := positive.

(** The calls to [youtubeService.<Resource>.<Method>(...)...Do()]. *)
Inductive ApiCall :=
| SearchList (q : string) (channelId : option string) (maxResults : Z)
| VideosList (id : string)
| CommentThreadsList (videoId order : string) (maxResults : Z)
| CommentsInsert (parentId textOriginal : string)
| PlaylistItemsInsert (playlistId videoId : string).

(** What the program does to the outside and to the token holder, in order. *)
Inductive Event :=
| EvSetToken (p : option loc)      (* ts.token = p, under the write lock *)
| EvExchange (code : string)       (* oauthConfig.Exchange(ctx, code) *)
| EvToken (p : loc)                (* tokenSource.Token(), source built from p *)
| EvNewService (p : loc)           (* youtube.NewService over that source *)
| EvDo (c : ApiCall)               (* call.Do() *)
| EvNewTicker (d : Duration)       (* time.NewTicker(d) *)
| EvTickerStop                     (* ticker.Stop() *)
| EvLog (msg : string).            (* log.Println / log.Printf *)

Record State := mkState {
  heap : gmap loc Token;       (* the token objects allocated so far *)
  ts_token : option loc;       (* InMemoryTokenStore.token *)
  trace : list Event;
}.

(** The store of [main]: [&service.InMemoryTokenStore{}]. *)
Definition initial : State := mkState ∅ None [].

(** The writes to the token holder recorded in a trace. *)
Definition is_write (e : Event) : bool :=
  match e with EvSetToken _ => true | _ => false end.
Definition writes (tr : list Event) : list Event := filter is_write tr.

(** The refresh attempts recorded in a trace. *)
Definition is_refresh (e : Event) : bool :=
  match e with EvToken _ => true | _ => false end.
Definition refreshes (tr : list Event) : list Event := filter is_refresh tr.

(** The tickers created in a trace. *)
Definition is_ticker (e : Event) : bool :=
  match e with EvNewTicker _ => true | _ => false end.
Definition tickers (tr : list Event) : list Event := filter is_ticker tr.

(** State-passing computations. *)
Definition M (A : Type) : Type := State → A * State.

#[global] Instance M_ret : MRet M := λ A a st, (a, st).
#[global] Instance M_bind : MBind M := λ A B f m st, let '(a, st') := m st in f a st'.

Definition emit (e : Event) : M unit :=
  λ st, (tt, mkState (heap st) (ts_token st) (trace st ++ [e])).

Definition log (msg : string) : M unit := emit (EvLog msg).

(** [&t] for a new object [t]. *)
Definition alloc (t : Token) : M loc :=
  λ st, let q := fresh (dom (heap st)) in
        (q, mkState (<[q := t]> (heap st)) (ts_token st) (trace st)).

(** [*p]. Go pointers never dangle; an address outside the heap reads as the
    zero token, a case no execution reaches. *)
Definition deref (p : loc) : M Token := λ st, (heap st !!! p, st).

(** [*p = t], what a caller holding [p] can do to its fields. *)
Definition assign (p : loc) (t : Token) : M unit :=
  λ st, (tt, mkState (<[p := t]> (heap st)) (ts_token st) (trace st)).

(** *** InMemoryTokenStore *)

Definition GetToken : M (option loc) :=
  λ st, match ts_token st with
        | None => (None, st)
        | Some p => (tokenCopy ← (t ← deref p; alloc t); mret (Some tokenCopy)) st
        end.

Definition SetToken (token : option loc) : M unit :=
  λ st, emit (EvSetToken token) (mkState (heap st) token (trace st)).

(** *** The collaborators outside the repository *)

(** What [tokenSource.Token()] hands back: the token the source was built
    from (oauth2 reuses a token it deems valid), a new token object (a
    refresh), or an error. *)
Inductive TokenResult :=
| TokSame
| TokNew (t : Token)
| TokErr (err : error).

(** A [*youtube.Service]: a client over the token source, which by then
    holds the token at [svc_token]. *)
Record Service := mkService { svc_token : loc }.

(** Every result may depend on all that happened before, the state included.
    [oauthConfig.Exchange] yields an error or a token object, never both nil. *)
Record World := mkWorld {
  oauth_Exchange : State → string → error + Token;
  oauth_Token : State → loc → TokenResult;
  oauth_Valid : State → Token → bool;            (* token.Valid() *)
  time_Now : State → Time;                       (* time.Now() *)
  youtube_NewService : State → loc → option error;
  youtube_Do : State → Service → ApiCall → error + value;
}.

(** Reads a result off the world. *)
Definition ask {A : Type} (f : State → A) : M A := λ st, (f st, st).

(** *** GoogleOAuthService *)

Section GoogleOAuthService.
Context (W : World).

(** [s.oauthConfig.Exchange(ctx, code)]. *)
Definition Exchange (code : string) : M (error + loc) :=
  emit (EvExchange code);;
  r ← ask (λ st, oauth_Exchange W st code);
  match r with
  | inl err => mret (inl err)
  | inr t => token ← alloc t; mret (inr token)
  end.

(** [s.oauthConfig.TokenSource(ctx, token).Token()]. *)
Definition tokenSource_Token (token : loc) : M (error + loc) :=
  emit (EvToken token);;
  r ← ask (λ st, oauth_Token W st token);
  match r with
  | TokSame => mret (inr token)
  | TokNew t => newToken ← alloc t; mret (inr newToken)
  | TokErr err => mret (inl err)
  end.

(** [youtube.NewService(ctx, option.WithTokenSource(tokenSource))]. *)
Definition NewService (held : loc) : M (error + Service) :=
  emit (EvNewService held);;
  r ← ask (λ st, youtube_NewService W st held);
  match r with
  | Some err => mret (inl err)
  | None => mret (inr (mkService held))
  end.

Definition ExchangeCodeForToken (code : string) : M (option error) :=
  r ← Exchange code;
  match r with
  | inl err => mret (Some (wrapf "failed to exchange code for token" err))
  | inr token =>
      SetToken (Some token);;
      log "✅ Successfully authenticated with Google and stored token in memory.";;
      mret None
  end.

Definition GetYouTubeService : M (error + Service) :=
  token ← GetToken;
  match token with
  | None => mret (inl "not authenticated with Google; please visit /oauth/authorize"%string)
  | Some token =>
      r ← tokenSource_Token token;
      match r with
      | inl err => mret (inl (wrapf "failed to retrieve or refresh token" err))
      | inr newToken =>
          new ← deref newToken;
          old ← deref token;
          (if bool_decide (AccessToken new ≠ AccessToken old)
           then SetToken (Some newToken);; log "♻️ Google OAuth token was refreshed."
           else mret tt);;
          r ← NewService newToken;
          match r with
          | inl err => mret (inl (wrapf "failed to create YouTube service" err))
          | inr youtubeService => mret (inr youtubeService)
          end
      end
  end.

Definition IsAuthenticated : M bool :=
  token ← GetToken; mret (bool_decide (token ≠ None)).

(** What [select] picks in one round of the refresher's loop. *)
Inductive Select :=
| CtxDone
| Tick.

(** The period handed to [time.NewTicker]. *)
Definition tickerPeriod : Duration := (15 * Minute)%Z.

(** The body of [case <-ticker.C]. *)
Definition refresher_tick : M unit :=
  token ← GetToken;
  match token with
  | None => mret tt
  | Some token =>
      t ← deref token;
      valid ← ask (λ st, oauth_Valid W st t);
      now ← ask (time_Now W);
      if negb valid || (Expiry t <? now + 30 * Minute)%Z then
        log "Proactively refreshing token...";;
        r ← tokenSource_Token token;
        match r with
        | inl err =>
            log (wrapf "Error refreshing token in background" err);;
            SetToken None
        | inr newToken =>
            SetToken (Some newToken);;
            log "✅ Token proactively refreshed in the background."
        end
      else mret tt
  end.

(** The [for { select { ... } }]: [true] once [ctx.Done()] was picked, [false]
    while the goroutine still waits for the next round. *)
Fixpoint refresher_loop (sel : list Select) : M bool :=
  match sel with
  | [] => mret false
  | CtxDone :: _ => mret true
  | Tick :: sel => refresher_tick;; refresher_loop sel
  end.

Definition TokenRefresher (sel : list Select) : M bool :=
  log "background token refresher started";;
  emit (EvNewTicker tickerPeriod);;
  returned ← refresher_loop sel;
  (if returned : bool then emit EvTickerStop else mret tt);;
  mret returned.

(** *** YouTubeService *)

(** [call.Do()]. *)
Definition Do (youtubeService : Service) (call : ApiCall) : M (error + value) :=
  emit (EvDo call);;
  ask (λ st, youtube_Do W st youtubeService call).

(** The shape shared by the five methods: get the client, issue one call,
    wrap either error. *)
Definition withService (call : ApiCall) (failed : string) : M (error + value) :=
  r ← GetYouTubeService;
  match r with
  | inl err => mret (inl (wrapf "failed to get YouTube service" err))
  | inr youtubeService =>
      r ← Do youtubeService call;
      match r with
      | inl err => mret (inl (wrapf failed err))
      | inr response => mret (inr response)
      end
  end.

Definition SearchVideos (query channelID : string) (limit : Z) : M (error + value) :=
  withService
    (SearchList query (if bool_decide (channelID ≠ ""%string) then Some channelID else None) limit)
    "failed to search videos".

Definition GetVideoMetadata (videoID : string) : M (error + value) :=
  withService (VideosList videoID) "failed to get video metadata".

Definition GetVideoComments (videoID sortBy : string) (limit : Z) : M (error + value) :=
  withService (CommentThreadsList videoID sortBy limit) "failed to get video comments".

Definition ReplyToComment (parentID text : string) : M (error + value) :=
  withService (CommentsInsert parentID text) "failed to post comment".

Definition AddVideoToPlaylist (playlistID videoID : string) : M (error + value) :=
  withService (PlaylistItemsInsert playlistID videoID) "failed to add video to playlist".

End GoogleOAuthService.

(** The claim C4 as the specification words it: once a present credential
    was read and the token source yielded [newToken], the holder is
    overwritten exactly when the access tokens differ, and in both cases a
    client over the yielded credential is returned. *)
Definition C4_as_stated (W : World) (st : State) : Prop :=
  ∀ (p newToken : loc) (st2 : State),
    ts_token st = Some p →
    tokenSource_Token W (fresh (dom (heap st))) (GetToken st).2 = (inr newToken, st2) →
    let st' := (GetYouTubeService W st).2 in
    (if decide (AccessToken (heap st2 !!! newToken) = AccessToken (heap st !!! p))
     then ts_token st' = Some p ∧ writes (trace st') = writes (trace st)
     else ts_token st' = Some newToken
          ∧ writes (trace st') = writes (trace st) ++ [EvSetToken (Some newToken)])
    ∧ (GetYouTubeService W st).1 = inr (mkService newToken).

(** The slot is nil or points at an allocated token object: what Go's
    memory safety gives, and what makes [deref] read real objects only. *)
Definition wf (st : State) : Prop :=
  match ts_token st with
  | Some p => is_Some (heap st !! p)
  | None => True
  end.

(** *** A caller of the token store *)

(** It reads, and it overwrites fields of the copies it was handed:
    [OpMutate k t] makes the [k]-th copy it received read [t]. *)
Inductive CallerOp :=
| OpGet
| OpMutate (k : nat) (t : Token).

(** Runs the caller; the result lists what each [GetToken] returned
    ([None] for nil, else the token value behind the pointer). *)
Fixpoint caller (ops : list CallerOp) (got : list loc) : M (list (option Token)) :=
  match ops with
  | [] => mret []
  | OpGet :: ops =>
      r ← GetToken;
      match r with
      | None => rest ← caller ops got; mret (None :: rest)
      | Some q => v ← deref q; rest ← caller ops (got ++ [q]); mret (Some v :: rest)
      end
  | OpMutate k t :: ops =>
      match got !! k with
      | Some q => assign q t
      | None => mret tt
      end;;
      caller ops got
  end.

End service.

(** ** Package api: the MCP handler *)

Module api.
Import service.

Record MCPRequest := mkRequest {
  Req_JSONRPC : string;
  Req_ID : value;
  Req_Method : string;
  Req_Params : value;
}.

Record MCPError := mkError {
  Code : Z;
  Message : string;
  Data : value;
}.

Record InitializeResult := mkInitializeResult {
  ProtocolVersion : string;
  Capabilities : gmap string value;
  ServerInfo : gmap string string;
}.

Record Tool := mkTool {
  Tool_Name : string;
  Description : string;
  InputSchema : gmap string value;
}.

Record ToolsListResult := mkToolsList { Tools : list Tool }.

Record ToolsCallParams := mkParams {
  Name : string;
  Arguments : gmap string value;
}.

Record ContentItem := mkContent {
  Type_ : string;
  Text : string;
  JSON : value;
}.

Record ToolsCallResult := mkToolsCallResult {
  Content : list ContentItem;
  IsError : bool;
}.

(** What the [interface{}] in [MCPResponse.Result] holds. *)
Inductive ResultPayload :=
| ResInitialize (r : InitializeResult)
| ResToolsList (r : ToolsListResult)
| ResToolsCall (r : ToolsCallResult).

(** [Result] and [Error] are [None] when the Go field is nil (omitted on
    the wire). *)
Record MCPResponse := mkResponse {
  Resp_JSONRPC : string;
  Resp_ID : value;
  Result : option ResultPayload;
  Error : option MCPError;
}.

(** encoding/json as the handler uses it, and the one conversion whose
    result Go leaves to the implementation. *)
Record Codec := mkCodec {
  Bytes : Type;
  json_Marshal : value → error + Bytes;
  json_Unmarshal : Bytes → error + ToolsCallParams;   (* into a zero ToolsCallParams *)
  int64_unrepresentable : spec_float → Z;             (* int64(f), f outside int64 *)
}.

(** An untyped constant assigned to a float64 variable. *)
Definition float64_const (n : Z) : spec_float := binary_normalize 53 1024 n 0 false.

(** [limit == 0] on float64: both zeros compare equal to 0. *)
Definition float64_is_zero (f : spec_float) : bool := SFeqb f (S754_zero false).

Section MCPHandler.
Context (W : World) (J : Codec).

(** [int64(f)]: truncation toward zero when the result fits. *)
Definition int64 (f : spec_float) : Z :=
  match f with
  | S754_zero _ => 0%Z
  | S754_finite s m e =>
      let mag := Z.shiftl (Z.pos m) e in
      let z := if s then (- mag)%Z else mag in
      if ((- 2 ^ 63 <=? z) && (z <? 2 ^ 63))%Z then z else int64_unrepresentable J f
  | _ => int64_unrepresentable J f
  end.

Definition sendSuccessResponse (id : value) (result : ResultPayload) : MCPResponse :=
  mkResponse "2.0" id (Some result) None.

Definition sendErrorResponse (id : value) (code : Z) (message : string) (data : value)
  : MCPResponse :=
  mkResponse "2.0" id None (Some (mkError code message data)).

Definition sendToolError (id : value) (message : string) : MCPResponse :=
  sendSuccessResponse id
    (ResToolsCall (mkToolsCallResult [mkContent "text" message VNil] true)).

Definition sendToolResult (id : value) (result : value) : MCPResponse :=
  sendSuccessResponse id
    (ResToolsCall (mkToolsCallResult [mkContent "json" "" result] false)).

Definition decodeParams (source : value) : error + ToolsCallParams :=
  match json_Marshal J source with
  | inl err => inl err
  | inr bytes => json_Unmarshal J bytes
  end.

Definition handleInitialize (req : MCPRequest) : MCPResponse :=
  sendSuccessResponse (Req_ID req)
    (ResInitialize
       (mkInitializeResult "2025-06-18"
          {[ "tools"%string := VObject ∅ ]}
          (<[ "name"%string := "youtube-toolkit-server"%string ]>
             {[ "version"%string := "2.0.0"%string ]}))).

(** A property of an input schema: [{"type": ty, "description": d}]. *)
Definition prop (ty d : string) : value :=
  VObject (<[ "type"%string := VString ty ]> {[ "description"%string := VString d ]}).

Definition schema (properties : gmap string value) (required : list string)
  : gmap string value :=
  <[ "type"%string := VString "object" ]>
    (<[ "properties"%string := VObject properties ]>
       {[ "required"%string := VArray (VString <$> required) ]}).

Definition handleToolsList (req : MCPRequest) : MCPResponse :=
  let tools := [
    mkTool "get_video_metadata" "Gets detailed information for a specific video."
      (schema {[ "video_id"%string := prop "string" "The ID of the YouTube video." ]}
              ["video_id"%string]);
    mkTool "search_videos" "Searches for YouTube videos."
      (schema (<[ "query"%string := prop "string" "The search term." ]>
                 (<[ "channel_id"%string :=
                       prop "string" "Optional: Restricts search to a specific channel." ]>
                    {[ "limit"%string :=
                         prop "integer" "Optional: Max number of results (default: 10)." ]}))
              ["query"%string]);
    mkTool "get_video_comments" "Fetches top-level comment threads for a video."
      (schema (<[ "video_id"%string := prop "string" "The ID of the YouTube video." ]>
                 (<[ "sort_by"%string := prop "string" "Optional: Sort order (default: top)." ]>
                    {[ "limit"%string :=
                         prop "integer" "Optional: Max number of results (default: 20)." ]}))
              ["video_id"%string])
  ] in
  sendSuccessResponse (Req_ID req) (ResToolsList (mkToolsList tools)).

(** The tail shared by the tool handlers: report the service's error as a
    tool error, its response as the tool result. *)
Definition respond (id : value) (r : error + value) : MCPResponse :=
  match r with
  | inl err => sendToolError id (wrapf "API Error" err)
  | inr result => sendToolResult id result
  end.

Definition handleGetVideoMetadata (id : value) (params : ToolsCallParams) : M MCPResponse :=
  let '(videoID, _) := assert_string (Arguments params !! "video_id"%string) in
  if bool_decide (videoID = ""%string) then mret (sendToolError id "video_id is required")
  else
    r ← GetVideoMetadata W videoID;
    mret (respond id r).

Definition handleSearchVideos (id : value) (params : ToolsCallParams) : M MCPResponse :=
  let '(query, _) := assert_string (Arguments params !! "query"%string) in
  if bool_decide (query = ""%string) then mret (sendToolError id "query is required")
  else
    let '(channelID, _) := assert_string (Arguments params !! "channel_id"%string) in
    let '(limit, ok) := assert_float64 (Arguments params !! "limit"%string) in
    let limit := if negb ok || float64_is_zero limit then float64_const 10 else limit in
    r ← SearchVideos W query channelID (int64 limit);
    mret (respond id r).

Definition handleGetVideoComments (id : value) (params : ToolsCallParams) : M MCPResponse :=
  let '(videoID, _) := assert_string (Arguments params !! "video_id"%string) in
  if bool_decide (videoID = ""%string) then mret (sendToolError id "video_id is required")
  else
    let '(sortBy, _) := assert_string (Arguments params !! "sort_by"%string) in
    let sortBy := if bool_decide (sortBy = ""%string) then "top"%string else sortBy in
    let '(limit, ok) := assert_float64 (Arguments params !! "limit"%string) in
    let limit := if negb ok || float64_is_zero limit then float64_const 20 else limit in
    r ← GetVideoComments W videoID sortBy (int64 limit);
    mret (respond id r).

Definition handleToolsCall (req : MCPRequest) : M MCPResponse :=
  match decodeParams (Req_Params req) with
  | inl err => mret (sendErrorResponse (Req_ID req) (-32602) "Invalid params" (VString err))
  | inr toolParams =>
      if bool_decide (Name toolParams = "get_video_metadata"%string) then
        handleGetVideoMetadata (Req_ID req) toolParams
      else if bool_decide (Name toolParams = "search_videos"%string) then
        handleSearchVideos (Req_ID req) toolParams
      else if bool_decide (Name toolParams = "get_video_comments"%string) then
        handleGetVideoComments (Req_ID req) toolParams
      else mret (sendErrorResponse (Req_ID req) (-32601) "Unknown tool" VNil)
  end.

(** [req] is the request as [json.NewDecoder(r.Body).Decode(&req)] left it and
    [err] the error of that call. *)
Definition HandleMCP (req : MCPRequest) (err : option error) : M MCPResponse :=
  match err with
  | Some _ => mret (sendErrorResponse (Req_ID req) (-32700) "Parse error" VNil)
  | None =>
      if bool_decide (Req_Method req = "initialize"%string) then mret (handleInitialize req)
      else if bool_decide (Req_Method req = "tools/list"%string) then mret (handleToolsList req)
      else if bool_decide (Req_Method req = "tools/call"%string) then handleToolsCall req
      else mret (sendErrorResponse (Req_ID req) (-32601) "Method not found" VNil)
  end.

End MCPHandler.

(** The required argument of each tool, as the input schemas of
    [handleToolsList] list it. *)
Definition required_of (tool : string) : option string :=
  if bool_decide (tool = "get_video_metadata"%string) then Some "video_id"%string
  else if bool_decide (tool = "search_videos"%string) then Some "query"%string
  else if bool_decide (tool = "get_video_comments"%string) then Some "video_id"%string
  else None.

(** The argument [arg] is missing or invalid: absent, not a string, or the
    empty string. *)
Definition lacks (args : gmap string value) (arg : string) : Prop :=
  ∀ s, args !! arg = Some (VString s) → s = ""%string.

(** The [limit] argument is absent, not a JSON number, or exactly zero. *)
Definition limit_defaulted (args : gmap string value) : Prop :=
  args !! "limit"%string = None
  ∨ (∃ v, args !! "limit"%string = Some v ∧ ∀ f, v ≠ VFloat64 f)
  ∨ (∃ sign, args !! "limit"%string = Some (VFloat64 (S754_zero sign))).

(** The [sort_by] argument is omitted or empty. *)
Definition sort_by_defaulted (args : gmap string value) : Prop :=
  args !! "sort_by"%string = None ∨ args !! "sort_by"%string = Some (VString "").

(** The tools, and their names, that a tools/list response advertises. *)
Definition catalog (resp : MCPResponse) : list Tool :=
  match Result resp with
  | Some (ResToolsList l) => Tools l
  | _ => []
  end.

Definition advertised (resp : MCPResponse) : list string := Tool_Name <$> catalog resp.

(** A response is a protocol-level error with the given code. *)
Definition is_protocol_error (code : Z) (resp : MCPResponse) : Prop :=
  Result resp = None ∧ ∃ e, Error resp = Some e ∧ Code e = code.

(** A response is a successful one carrying a tool-result error: [isError]
    set and a text content item. *)
Definition is_tool_error (resp : MCPResponse) : Prop :=
  Error resp = None ∧
  ∃ text, Result resp = Some (ResToolsCall (mkToolsCallResult [mkContent "text" text VNil] true)).

(** The claim C6 as the specification words it: a tools/call whose tool
    lacks its required argument is answered with protocol error -32602. *)
Definition C6_as_stated (W : World) (J : Codec) (req : MCPRequest) (st : State) : Prop :=
  ∀ (toolParams : ToolsCallParams) (arg : string),
    Req_Method req = "tools/call"%string →
    decodeParams J (Req_Params req) = inr toolParams →
    required_of (Name toolParams) = Some arg →
    lacks (Arguments toolParams) arg →
    is_protocol_error (-32602) (HandleMCP W J req None st).1.

End api.

(** ** Sample runs: worlds and requests to evaluate the model on *)

Module sample.
Import service api.

Definition tokA : Token := mkToken "ya29.A" "Bearer" "1//r" 3600000000000%Z.
Definition tokB : Token := mkToken "ya29.B" "Bearer" "1//r" 7200000000000%Z.

(** A store holding [tokA] at address 1. *)
Definition held : State := mkState {[ 1%positive := tokA ]} (Some 1%positive) [].

(** A provider that grants [tokB] for every code and refreshes to [tokB],
    a clock at [now], tokens valid or not as told, a client constructor and
    an API that fail or not as told. *)
Definition world (refresh : TokenResult) (valid : bool) (now : Time)
    (newServiceErr : option error) : World :=
  mkWorld (λ _ _, inr tokB) (λ _ _, refresh) (λ _ _, valid) (λ _, now)
          (λ _ _, newServiceErr) (λ _ _ _, inr (VString "response")).

(** A provider that rejects every code. *)
Definition rejecting : World :=
  mkWorld (λ _ _, inl "invalid_grant"%string) (λ _ _, TokErr "invalid_grant")
          (λ _ _, false) (λ _, 0%Z) (λ _ _, None) (λ _ _ _, inl "forbidden"%string).

(** A member of a JSON object, a null counting as absent. *)
Definition member (m : gmap string value) (key : string) : option value :=
  match m !! key with
  | Some VNil => None
  | v => v
  end.

(** encoding/json on a params object whose keys are spelled as the struct
    tags: the marshalled form is the value itself. *)
Definition codec : Codec :=
  mkCodec value inr
    (λ v, match v with
          | VObject m =>
              match member m "name", member m "arguments" with
              | Some (VString n), Some (VObject a) => inr (mkParams n a)
              | Some (VString n), None => inr (mkParams n ∅)
              | None, Some (VObject a) => inr (mkParams "" a)
              | None, None => inr (mkParams "" ∅)
              | _, _ => inl "json: cannot unmarshal into Go struct field of ToolsCallParams"%string
              end
          | VNil => inr (mkParams "" ∅)
          | _ => inl "json: cannot unmarshal into Go value of type api.ToolsCallParams"%string
          end)
    (λ _, (- 2 ^ 63)%Z).

(** [{"jsonrpc":"2.0","id":1,"method":"tools/call",
      "params":{"name":<name>,"arguments":<args>}}]. *)
Definition call (name : string) (args : gmap string value) : MCPRequest :=
  mkRequest "2.0" (VFloat64 (float64_const 1)) "tools/call"
    (VObject (<[ "name"%string := VString name ]> {[ "arguments"%string := VObject args ]})).

Definition list_request : MCPRequest :=
  mkRequest "2.0" (VFloat64 (float64_const 2)) "tools/list" VNil.

End sample.

(** ** Package service: the discovery metadata *)

Module metadata.

Record OAuthService := mkOAuthService { serverURL : string }.

Definition NewOAuthService (serverURL : string) : OAuthService := mkOAuthService serverURL.

Definition strings (l : list string) : value := VArray (VString <$> l).

Definition GetAuthServerMetadata (s : OAuthService) : gmap string value :=
  <[ "issuer"%string := VString (serverURL s) ]>
    (<[ "authorization_endpoint"%string := VString (serverURL s +:+ "/oauth/authorize") ]>
       (<[ "token_endpoint"%string := VString (serverURL s +:+ "/oauth/token") ]>
          (<[ "scopes_supported"%string := strings ["youtube:transcripts"%string] ]>
             (<[ "response_types_supported"%string := strings ["code"%string] ]>
                {[ "grant_types_supported"%string := strings ["authorization_code"%string] ]})))).

Definition GetProtectedResourceMetadata (s : OAuthService) : gmap string value :=
  <[ "resource"%string := VString (serverURL s) ]>
    {[ "authorization_servers"%string := strings [serverURL s] ]}.

End metadata.

(** ** Package api: the OAuth handler and the routes *)

Module web.
Import service api metadata.

(** What a handler writes to the [http.ResponseWriter]. *)
Inductive Payload :=
| Written (text : string)                 (* fmt.Fprint, http.Error *)
| Encoded (m : gmap string string)        (* Encode of a map[string]string *)
| EncodedValue (m : gmap string value)    (* Encode of a map[string]interface{} *)
| EncodedMCP (r : MCPResponse).           (* Encode of an MCPResponse *)

(** The status is 200 when the handler never calls [WriteHeader]. *)
Record Response := mkHTTP {
  Status : Z;
  Header : gmap string string;
  Body : Payload;
}.

Definition StatusOK : Z := 200.
Definition StatusBadRequest : Z := 400.
Definition StatusUnauthorized : Z := 401.
Definition StatusInternalServerError : Z := 500.

(** [http.Error(w, msg, code)]. *)
Definition http_Error (msg : string) (code : Z) : Response :=
  mkHTTP code
    (<[ "Content-Type"%string := "text/plain; charset=utf-8"%string ]>
       {[ "X-Content-Type-Options"%string := "nosniff"%string ]})
    (Written (msg +:+ "
")).

(** [r.URL.Query().Get(key)]: the first value of the key, or the empty
    string. *)
Definition Query_Get (query : gmap string (list string)) (key : string) : string :=
  match query !! key with
  | Some (v :: _) => v
  | _ => ""%string
  end.

Definition successPage : string := "
	<!DOCTYPE html>
	<html>
	<head>
		<title>Authentication Successful</title>
		<style>body{font-family: Arial, sans-serif; text-align: center; margin-top: 100px;}</style>
	</head>
	<body>
		<h1>✅ Authentication Successful!</h1>
		<p>You can now close this window and return to your application.</p>
	</body>
	</html>
	".

(** The routes [SetupOAuthRoutes] registers, by method and pattern. *)
Definition SetupOAuthRoutes : list (string * string) :=
  [("GET", "/.well-known/oauth-protected-resource");
   ("GET", "/.well-known/oauth-authorization-server");
   ("GET", "/oauth/authorize");
   ("GET", "/oauth/callback")]%string.

(** With those of [main]: the POST on the subrouter mounted at /mcp, the
    health check and the root page. *)
Definition routes : list (string * string) :=
  SetupOAuthRoutes ++ [("POST", "/mcp"); ("GET", "/health"); ("GET", "/")]%string.

Section OAuthHandler.
Context (W : World) (J : Codec).

Definition sendUnauthorized : Response :=
  mkHTTP StatusUnauthorized {[ "Content-Type"%string := "application/json"%string ]}
    (Encoded
       (<[ "error"%string := "unauthorized"%string ]>
          {[ "error_description"%string :=
               "Not authenticated with Google. Please visit /oauth/authorize to log in."%string ]})).

Definition GoogleCallback (query : gmap string (list string)) : M Response :=
  let code := Query_Get query "code" in
  let errorParam := Query_Get query "error" in
  if bool_decide (errorParam ≠ ""%string) then
    mret (http_Error ("OAuth error from Google: " +:+ errorParam) StatusBadRequest)
  else if bool_decide (code = ""%string) then
    mret (http_Error "Missing authorization code from Google" StatusBadRequest)
  else
    err ← ExchangeCodeForToken W code;
    match err with
    | Some err =>
        mret (http_Error ("Failed to exchange Google code for token: " +:+ err)
                StatusInternalServerError)
    | None =>
        mret (mkHTTP StatusOK {[ "Content-Type"%string := "text/html"%string ]}
                (Written successPage))
    end.

Definition RequireAuth (next : M Response) : M Response :=
  authenticated ← IsAuthenticated;
  if negb authenticated then mret sendUnauthorized
  else next.

(** [HandleMCP] as an [http.HandlerFunc]: each path through it sets the
    content type and encodes one [MCPResponse]. *)
Definition serveMCP (req : MCPRequest) (err : option error) : M Response :=
  response ← HandleMCP W J req err;
  mret (mkHTTP StatusOK {[ "Content-Type"%string := "application/json"%string ]}
          (EncodedMCP response)).

(** The /mcp route of [main]: [RequireAuth] in front of [HandleMCP]. *)
Definition route_mcp (req : MCPRequest) (err : option error) : M Response :=
  RequireAuth (serveMCP req err).

(** The two discovery routes. *)
Definition route_protected_resource (s : OAuthService) : Response :=
  mkHTTP StatusOK ∅ (EncodedValue (GetProtectedResourceMetadata s)).

Definition route_authorization_server (s : OAuthService) : Response :=
  mkHTTP StatusOK ∅ (EncodedValue (GetAuthServerMetadata s)).

End OAuthHandler.

End web.

(** ** Package config *)

Module config.

Record Config := mkConfig {
  GoogleClientID : string;
  GoogleClientSecret : string;
  GoogleRedirectURI : string;
  MCPServerURL : string;
  Port : string;
  Environment : string;
}.

(** [os.Getenv]: the empty string for a variable that is not set. The
    environment is the one [godotenv.Load] leaves. *)
Definition os_Getenv (env : gmap string string) (key : string) : string :=
  default ""%string (env !! key).

Definition getEnv (env : gmap string string) (key defaultValue : string) : string :=
  let value := os_Getenv env key in
  if bool_decide (value ≠ ""%string) then value else defaultValue.

(** [Load] returns, or ends the process through [log.Fatal]. *)
Inductive Loaded :=
| Returns (config : Config)
| Fatal (msg : string).

Definition Load (env : gmap string string) : Loaded :=
  let config :=
    mkConfig (getEnv env "GOOGLE_CLIENT_ID" "")
             (getEnv env "GOOGLE_CLIENT_SECRET" "")
             (getEnv env "GOOGLE_REDIRECT_URI" "http://localhost:8080/oauth/callback")
             (getEnv env "MCP_SERVER_URL" "http://localhost:8080")
             (getEnv env "PORT" "8080")
             (getEnv env "ENVIRONMENT" "development") in
  if bool_decide (GoogleClientID config = ""%string) then
    Fatal "GOOGLE_CLIENT_ID environment variable is required"
  else if bool_decide (GoogleClientSecret config = ""%string) then
    Fatal "GOOGLE_CLIENT_SECRET environment variable is required"
  else Returns config.

End config.

(** ** Observations on traces *)

Module observe.
Import service.

Definition is_do (e : Event) : bool :=
  match e with EvDo _ => true | _ => false end.
Definition calls (tr : list Event) : list Event := filter is_do tr.

Definition is_exchange (e : Event) : bool :=
  match e with EvExchange _ => true | _ => false end.
Definition exchanges (tr : list Event) : list Event := filter is_exchange tr.

Definition is_client (e : Event) : bool :=
  match e with EvNewService _ => true | _ => false end.
Definition clients (tr : list Event) : list Event := filter is_client tr.

Definition is_stop (e : Event) : bool :=
  match e with EvTickerStop => true | _ => false end.
Definition stops (tr : list Event) : list Event := filter is_stop tr.

(** A tick of the refresher emits log lines, one question to the token
    source and one write, nothing else: an observation is quiet when it is
    blind to these three. *)
Definition quiet (f : Event → bool) : Prop :=
  (∀ msg, f (EvLog msg) = false) ∧ (∀ p, f (EvToken p) = false)
  ∧ (∀ p, f (EvSetToken p) = false).

(** From [st] to [st'] the program asked the provider for no code exchange,
    issued at most [n] API calls, and asked the token source, wrote the
    token holder and built a client at most once each. *)
Definition spends (st st' : State) (n : nat) : Prop :=
  exchanges (trace st') = exchanges (trace st)
  ∧ length (calls (trace st')) ≤ length (calls (trace st)) + n
  ∧ length (refreshes (trace st')) ≤ length (refreshes (trace st)) + 1
  ∧ length (writes (trace st')) ≤ length (writes (trace st)) + 1
  ∧ length (clients (trace st')) ≤ length (clients (trace st)) + 1.

End observe.

(** ** golang.org/x/oauth2: what the token source promises *)

Module oauth2_library.
Import service.

(** [Config.TokenSource(ctx, t)] "returns t until t expires, automatically
    refreshing it as necessary": asked for a token, the source hands back the
    one it was given exactly when that one is valid, and only otherwise goes
    to the provider, for a new token or an error. *)
Definition contract (W : World) : Prop :=
  ∀ (st : State) (p : loc),
    oauth_Token W st p = TokSame ↔ oauth_Valid W st (heap st !!! p) = true.

(** The state in which [TokenRefresher] enters its loop. *)
Definition started (st : State) : State :=
  mkState (heap st) (ts_token st)
    ((trace st ++ [EvLog "background token refresher started"])
       ++ [EvNewTicker tickerPeriod]).

End oauth2_library.

(** ** The paths through the dispatcher *)

Module paths.
Import service api.

(** The methods and the tools the two switches know. *)
Definition methods : list string := ["initialize"; "tools/list"; "tools/call"]%string.
Definition tools : list string :=
  ["get_video_metadata"; "search_videos"; "get_video_comments"]%string.

(** The paths through [HandleMCP], each with what it answers and whether it
    can have touched the state. *)
Inductive Path (J : Codec) (req : MCPRequest) (err : option error) (st : State)
  : MCPResponse * State → Prop :=
| PathParse (e : error) :
    err = Some e →
    Path J req err st (sendErrorResponse (Req_ID req) (-32700) "Parse error" VNil, st)
| PathInitialize :
    err = None → Req_Method req = "initialize"%string →
    Path J req err st (handleInitialize req, st)
| PathList :
    err = None → Req_Method req = "tools/list"%string →
    Path J req err st (handleToolsList req, st)
| PathMethod :
    err = None → Req_Method req ∉ methods →
    Path J req err st (sendErrorResponse (Req_ID req) (-32601) "Method not found" VNil, st)
| PathParams (e : error) :
    err = None → Req_Method req = "tools/call"%string →
    decodeParams J (Req_Params req) = inl e →
    Path J req err st
      (sendErrorResponse (Req_ID req) (-32602) "Invalid params" (VString e), st)
| PathTool (toolParams : ToolsCallParams) :
    err = None → Req_Method req = "tools/call"%string →
    decodeParams J (Req_Params req) = inr toolParams →
    Name toolParams ∉ tools →
    Path J req err st (sendErrorResponse (Req_ID req) (-32601) "Unknown tool" VNil, st)
| PathHandler (toolParams : ToolsCallParams) (payload : ResultPayload) (st' : State) :
    err = None → Req_Method req = "tools/call"%string →
    decodeParams J (Req_Params req) = inr toolParams →
    Name toolParams ∈ tools →
    Path J req err st (sendSuccessResponse (Req_ID req) payload, st').

(** What a tools/call stands for, read off the catalog: the argument [key]
    when it is a non-empty string; the [limit], [d] unless it is a number
    other than zero; and the API call with the message that introduces its
    failure, when the tool is known and has its required argument. *)
Definition string_arg (args : gmap string value) (key : string) : option string :=
  match args !! key with
  | Some (VString s) => if bool_decide (s = ""%string) then None else Some s
  | _ => None
  end.

Definition limit_arg (J : Codec) (args : gmap string value) (d : Z) : Z :=
  match args !! "limit"%string with
  | Some (VFloat64 f) => if float64_is_zero f then d else int64 J f
  | _ => d
  end.

Definition expected_call (J : Codec) (name : string) (args : gmap string value)
  : option (ApiCall * string) :=
  if bool_decide (name = "get_video_metadata"%string) then
    videoID ← string_arg args "video_id";
    Some (VideosList videoID, "failed to get video metadata"%string)
  else if bool_decide (name = "search_videos"%string) then
    query ← string_arg args "query";
    Some (SearchList query (string_arg args "channel_id") (limit_arg J args 10),
          "failed to search videos"%string)
  else if bool_decide (name = "get_video_comments"%string) then
    videoID ← string_arg args "video_id";
    Some (CommentThreadsList videoID (default "top"%string (string_arg args "sort_by"))
            (limit_arg J args 20),
          "failed to get video comments"%string)
  else None.

End paths.

(** ** Inputs of the sample runs *)

Module inputs.
Import service api.

Definition metadata_args : gmap string value :=
  {[ "video_id"%string := VString "kYB8IZa5AuE" ]}.

Definition search_args (limit : spec_float) : gmap string value :=
  <[ "query"%string := VString "Go programming tutorial" ]>
    {[ "limit"%string := VFloat64 limit ]}.

(** 0.5 as a float64. *)
Definition half : spec_float := S754_finite false 4503599627370496 (-53).

Definition callback_query : gmap string (list string) :=
  <[ "code"%string := ["4/0Ab"%string] ]> {[ "state"%string := ["state-token"%string] ]}.

Definition environment : gmap string string :=
  <[ "GOOGLE_CLIENT_ID"%string := "id.apps.googleusercontent.com"%string ]>
    {[ "GOOGLE_CLIENT_SECRET"%string := "GOCSPX-secret"%string ]}.

End inputs.

(** * Properties *)

(** ** The token holder *)

Module token_store.
Import service sample.

(** How the two methods act on the state. *)
Lemma GetToken_nil (st : State) :
  ts_token st = None → GetToken st = (None, st).
Proof. intros H. unfold GetToken. by rewrite H. Qed.

Lemma GetToken_copy (st : State) (p : loc) :
  ts_token st = Some p →
  GetToken st =
    (Some (fresh (dom (heap st))),
     mkState (<[fresh (dom (heap st)) := heap st !!! p]> (heap st)) (Some p) (trace st)).
Proof. intros H. unfold GetToken. rewrite H. unfold mbind, M_bind, mret, M_ret, deref, alloc. cbn. by rewrite H. Qed.

Lemma fresh_unallocated (h : gmap loc Token) : h !! fresh (dom h) = None.
Proof. apply not_elem_of_dom, is_fresh. Qed.

Lemma fresh_ne (h : gmap loc Token) (p : loc) (c : Token) :
  h !! p = Some c → fresh (dom h) ≠ p.
Proof. intros H E. rewrite <- E, fresh_unallocated in H. discriminate. Qed.

(** Reading neither writes the slot nor adds to the trace, and the objects
    allocated before keep their values. *)
Lemma GetToken_frame (st : State) :
  ts_token (GetToken st).2 = ts_token st
  ∧ trace (GetToken st).2 = trace st
  ∧ ∀ p c, heap st !! p = Some c → heap (GetToken st).2 !! p = Some c.
Proof.
  destruct (ts_token st) as [p|] eqn:E.
  - rewrite (GetToken_copy st p E). cbn. split; [done|]. split; [done|].
    intros p' c Hp'. rewrite lookup_insert_ne; [done|]. by eapply fresh_ne.
  - by rewrite (GetToken_nil st E).
Qed.

(** The invariant of a caller that only reads and mutates its copies: the
    slot keeps pointing at an object no copy aliases, so every read sees
    the stored value. *)
Lemma caller_reads (ops : list CallerOp) :
  ∀ (got : list loc) (st : State) (p : loc) (c : Token),
    ts_token st = Some p → heap st !! p = Some c → p ∉ got →
    Forall (λ r, r = Some c) (caller ops got st).1.
Proof.
  induction ops as [|[|k t] ops IH]; intros got st p c Hp Hc Hgot.
  - constructor.
  - cbn [caller]. unfold mbind, M_bind at 1.
    rewrite (GetToken_copy st p Hp).
    set (q := fresh (dom (heap st))).
    set (st1 := mkState _ _ _).
    assert (Hq : q ≠ p) by (by eapply fresh_ne).
    unfold mbind, M_bind, deref. cbn.
    specialize (IH (got ++ [q]) st1 p c).
    destruct (caller ops (got ++ [q]) st1) as [rest st2] eqn:Hrest. cbn in *.
    constructor.
    + rewrite lookup_total_insert_eq. f_equal. by rewrite lookup_total_alt, Hc.
    + apply IH; [done| |].
      * rewrite lookup_insert_ne; done.
      * rewrite elem_of_app, list_elem_of_singleton. intros [?|?]; [done|]. by subst.
  - cbn [caller]. unfold mbind, M_bind at 1.
    destruct (got !! k) as [q|] eqn:Hk; cbn.
    + apply (IH got _ p c); cbn; [done| |done].
      rewrite lookup_insert_ne; [done|].
      intros ->. apply Hgot. by eapply list_elem_of_lookup_2.
    + by apply (IH got st p c).
Qed.

(** C1. After [SetToken(c)], with no write in between, [GetToken()] returns
    nil when [c] is nil and otherwise a pointer to a new object whose value
    equals the token [c] points to; and whatever a caller then does to the
    copies it was handed, in any order and interleaved with further reads,
    every [GetToken()] keeps returning that value. *)
Theorem C1_SetToken_then_GetToken (st : State) (p : loc) (c : Token) (ops : list CallerOp) :
  heap st !! p = Some c →
  GetToken (SetToken None st).2 = (None, (SetToken None st).2)
  ∧ (∃ q st', GetToken (SetToken (Some p) st).2 = (Some q, st')
       ∧ heap st' !! q = Some c ∧ q ≠ p ∧ heap st !! q = None)
  ∧ Forall (λ r, r = Some c) (caller ops [] (SetToken (Some p) st).2).1.
Proof.
  intros Hc. split; [done|]. split.
  - eexists _, _. split; [by apply GetToken_copy|]. cbn.
    split; [|split].
    + rewrite lookup_insert_eq. f_equal. by rewrite lookup_total_alt, Hc.
    + by eapply fresh_ne.
    + apply fresh_unallocated.
  - apply (caller_reads ops [] _ p c); cbn; [done|done|]. apply not_elem_of_nil.
Qed.

Lemma C1_SetToken_then_GetToken_witness :
  heap held !! 1%positive = Some tokA
  ∧ Forall (λ r, r = Some tokA)
      (caller [OpGet; OpMutate 0 tokB; OpGet; OpMutate 1 tokB; OpGet] []
         (SetToken (Some 1%positive) held).2).1.
Proof.
  split; [reflexivity|].
  apply (C1_SetToken_then_GetToken held 1%positive tokA
           [OpGet; OpMutate 0 tokB; OpGet; OpMutate 1 tokB; OpGet]).
  reflexivity.
Defined.

End token_store.

(** ** The OAuth session manager *)

Module session.
Import service sample token_store.

(** Unfolds the state-passing combinators down to states and traces. *)
Ltac run :=
  unfold Exchange, tokenSource_Token, NewService, SetToken, log, emit, ask,
         alloc, deref, mbind, mret, M_bind, M_ret; cbn.

Lemma writes_snoc (tr : list Event) (e : Event) :
  writes (tr ++ [e]) = writes tr ++ (if is_write e then [e] else []).
Proof. unfold writes. rewrite filter_app. f_equal. by destruct e. Qed.

Lemma refreshes_snoc (tr : list Event) (e : Event) :
  refreshes (tr ++ [e]) = refreshes tr ++ (if is_refresh e then [e] else []).
Proof. unfold refreshes. rewrite filter_app. f_equal. by destruct e. Qed.

Lemma tickers_snoc (tr : list Event) (e : Event) :
  tickers (tr ++ [e]) = tickers tr ++ (if is_ticker e then [e] else []).
Proof. unfold tickers. rewrite filter_app. f_equal. by destruct e. Qed.

Ltac traces :=
  rewrite ?writes_snoc, ?refreshes_snoc, ?tickers_snoc; cbn; rewrite ?app_nil_r.

Lemma IsAuthenticated_spec (st : State) :
  ((IsAuthenticated st).1 = true ↔ ts_token st ≠ None)
  ∧ ts_token (IsAuthenticated st).2 = ts_token st
  ∧ trace (IsAuthenticated st).2 = trace st.
Proof.
  unfold IsAuthenticated, mbind, M_bind.
  destruct (ts_token st) as [p|] eqn:E.
  - rewrite (GetToken_copy st p E). cbn. naive_solver.
  - rewrite (GetToken_nil st E). cbn. naive_solver.
Qed.

(** C2. [ExchangeCodeForToken] writes to the token holder exactly when the
    provider exchange succeeds: on success it returns nil after one write,
    which stores the exchanged credential, and [IsAuthenticated()] is true
    afterwards; on failure it returns the wrapped error, and neither the
    slot, nor any token object, nor the list of writes has changed. *)
Theorem C2_exchange_writes_iff_success (W : World) (code : string) (st : State) :
  let asked := (emit (EvExchange code) st).2 in
  let r := (ExchangeCodeForToken W code st).1 in
  let st' := (ExchangeCodeForToken W code st).2 in
  match oauth_Exchange W asked code with
  | inr t =>
      r = None
      ∧ (∃ q, ts_token st' = Some q ∧ heap st' !! q = Some t
              ∧ writes (trace st') = writes (trace st) ++ [EvSetToken (Some q)])
      ∧ (IsAuthenticated st').1 = true
  | inl err =>
      r = Some (wrapf "failed to exchange code for token" err)
      ∧ ts_token st' = ts_token st
      ∧ heap st' = heap st
      ∧ writes (trace st') = writes (trace st)
  end.
Proof.
  unfold ExchangeCodeForToken. run.
  destruct (oauth_Exchange W _ code) as [err|t]; cbn.
  - repeat split. by traces.
  - split; [done|]. split.
    + eexists. split; [done|]. split; [by rewrite lookup_insert_eq|]. by traces.
    + by apply IsAuthenticated_spec.
Qed.

(** C10. Whatever the token holder held before, absent or an older
    credential, after a successful [ExchangeCodeForToken] it holds the newly
    exchanged credential and nothing else: the one slot points at a new
    object with that value, which is what the next [GetToken()] returns. *)
Theorem C10_exchange_replaces (W : World) (code : string) (st : State) (t : Token) :
  oauth_Exchange W (emit (EvExchange code) st).2 code = inr t →
  let st' := (ExchangeCodeForToken W code st).2 in
  (ExchangeCodeForToken W code st).1 = None
  ∧ (∃ q, ts_token st' = Some q ∧ heap st' !! q = Some t ∧ heap st !! q = None)
  ∧ (caller [OpGet] [] st').1 = [Some t].
Proof.
  intros Hex. unfold ExchangeCodeForToken. run. unfold emit in Hex. cbn in Hex.
  rewrite Hex. cbn. split; [done|]. split.
  - eexists. split; [done|]. split; [by rewrite lookup_insert_eq|].
    apply fresh_unallocated.
  - unfold GetToken. cbn. run. by rewrite !lookup_total_insert_eq.
Qed.

Lemma C10_exchange_replaces_witness :
  let W := world TokSame true 0%Z None in
  oauth_Exchange W (emit (EvExchange "4/0Ab") held).2 "4/0Ab" = inr tokB
  ∧ (caller [OpGet] [] (ExchangeCodeForToken W "4/0Ab" held).2).1 = [Some tokB].
Proof.
  split; [reflexivity|].
  apply (C10_exchange_replaces (world TokSame true 0%Z None) "4/0Ab" held tokB).
  reflexivity.
Defined.

(** C3. With no credential held, [GetYouTubeService] fails with the
    not-authenticated error and leaves the state as it was: the trace gains
    no event, so no refresh was attempted and nothing was written. In every
    state, [IsAuthenticated()] is true exactly when a credential is held,
    and it changes neither the slot nor the trace. *)
Theorem C3_not_authenticated (W : World) (st : State) :
  (ts_token st = None →
   GetYouTubeService W st =
     (inl "not authenticated with Google; please visit /oauth/authorize"%string, st))
  ∧ ((IsAuthenticated st).1 = true ↔ ts_token st ≠ None)
  ∧ ts_token (IsAuthenticated st).2 = ts_token st
  ∧ trace (IsAuthenticated st).2 = trace st.
Proof.
  split; [|apply IsAuthenticated_spec].
  intros H. unfold GetYouTubeService, mbind, M_bind.
  by rewrite (GetToken_nil st H).
Qed.

Lemma C3_not_authenticated_witness :
  ts_token initial = None
  ∧ GetYouTubeService rejecting initial =
      (inl "not authenticated with Google; please visit /oauth/authorize"%string, initial).
Proof.
  split; [reflexivity|].
  apply (C3_not_authenticated rejecting initial). reflexivity.
Defined.

(** C4, counterexample. The credential is held, the token source returns the
    token it was given, and [youtube.NewService] fails: no client is
    returned. *)
Lemma C4_counterexample :
  ¬ C4_as_stated (world TokSame true 0%Z (Some "no transport"%string)) held.
Proof.
  intros H.
  specialize (H 1%positive 2%positive _ eq_refl eq_refl) as [_ H].
  vm_compute in H. discriminate H.
Qed.

(** C4, as the code has it. Once a present credential was read and the token
    source yielded [newToken], the holder is overwritten, by one write of
    [newToken], exactly when its access token differs from the one just
    read; otherwise the slot and the writes are as before; no token object
    changes in either case. Then the client is built: if [youtube.NewService]
    succeeds, a client over [newToken] is returned, and if it fails the
    wrapped error is returned, the write standing. *)
Theorem C4_write_iff_access_token_differs
    (W : World) (st st2 : State) (p newToken : loc) :
  ts_token st = Some p →
  tokenSource_Token W (fresh (dom (heap st))) (GetToken st).2 = (inr newToken, st2) →
  let st' := (GetYouTubeService W st).2 in
  (if decide (AccessToken (heap st2 !!! newToken) = AccessToken (heap st !!! p))
   then ts_token st' = Some p ∧ writes (trace st') = writes (trace st)
   else ts_token st' = Some newToken
        ∧ writes (trace st') = writes (trace st) ++ [EvSetToken (Some newToken)])
  ∧ heap st' = heap st2
  ∧ (GetYouTubeService W st).1 =
      match youtube_NewService W st' newToken with
      | None => inr (mkService newToken)
      | Some err => inl (wrapf "failed to create YouTube service" err)
      end.
Proof.
  intros Hp Hsrc.
  assert (Hold : heap st2 !!! fresh (dom (heap st)) = heap st !!! p).
  { revert Hsrc. rewrite (GetToken_copy st p Hp). run.
    destruct (oauth_Token W _ _); intros [= <- <-]; cbn.
    - by rewrite lookup_total_insert_eq.
    - rewrite lookup_total_insert_ne, lookup_total_insert_eq; [done|].
      apply fresh_ne with (c := heap st !!! p), lookup_insert_eq. }
  assert (Htr : writes (trace st2) = writes (trace st) ∧ ts_token st2 = Some p).
  { revert Hsrc. rewrite (GetToken_copy st p Hp). run.
    destruct (oauth_Token W _ _); intros [= <- <-]; cbn; by traces. }
  destruct Htr as [Htr Hts].
  rewrite (GetToken_copy st p Hp) in Hsrc. cbn [snd] in Hsrc.
  assert (Hrun : GetYouTubeService W st =
    ((if bool_decide (AccessToken (heap st2 !!! newToken) ≠ AccessToken (heap st !!! p))
      then SetToken (Some newToken);; log "♻️ Google OAuth token was refreshed."
      else mret tt);;
     r ← NewService W newToken;
     match r with
     | inl err => mret (inl (wrapf "failed to create YouTube service" err))
     | inr youtubeService => mret (inr youtubeService)
     end) st2).
  { unfold GetYouTubeService, mbind, M_bind.
    rewrite (GetToken_copy st p Hp), Hsrc. unfold deref. by rewrite Hold. }
  rewrite Hrun. clear Hrun Hsrc.
  destruct (decide (AccessToken (heap st2 !!! newToken) = AccessToken (heap st !!! p)))
    as [Heq|Hne].
  - rewrite bool_decide_eq_false_2 by (by intros ?). run.
    destruct (youtube_NewService W _ newToken) eqn:E; cbn in *; rewrite E; by traces.
  - rewrite bool_decide_eq_true_2 by done. run.
    destruct (youtube_NewService W _ newToken) eqn:E; cbn in *; rewrite E; traces;
      by rewrite Htr.
Qed.

Lemma C4_write_iff_access_token_differs_witness :
  let W := world (TokNew tokB) false 0%Z None in
  ts_token held = Some 1%positive
  ∧ ts_token (GetYouTubeService W held).2 = Some 3%positive
  ∧ (GetYouTubeService W held).1 = inr (mkService 3%positive).
Proof.
  split; [reflexivity|].
  pose proof (C4_write_iff_access_token_differs (world (TokNew tokB) false 0%Z None)
                held _ 1%positive 3%positive eq_refl eq_refl) as H.
  cbv zeta in H. destruct H as (Hw & _ & Hr).
  split; [|exact Hr].
  exact (proj1 Hw).
Defined.

(** *** The slot never dangles *)

Lemma wf_initial : wf initial.
Proof. done. Qed.

Lemma wf_insert (st : State) (q : loc) (t : Token) (tr : list Event) :
  wf st → wf (mkState (<[q := t]> (heap st)) (ts_token st) tr).
Proof.
  unfold wf. cbn. destruct (ts_token st) as [p|]; [|done].
  intros [c Hc]. destruct (decide (q = p)) as [->|Hne].
  - rewrite lookup_insert_eq. by eexists.
  - rewrite lookup_insert_ne by done. by eexists.
Qed.

Lemma wf_trace (st : State) (tr : list Event) :
  wf st → wf (mkState (heap st) (ts_token st) tr).
Proof. done. Qed.

Lemma wf_GetToken (st : State) : wf st → wf (GetToken st).2.
Proof.
  intros H. destruct (ts_token st) as [p|] eqn:E.
  - rewrite (GetToken_copy st p E).
    pose proof (wf_insert st (fresh (dom (heap st))) (heap st !!! p) (trace st) H) as H1.
    by rewrite E in H1.
  - by rewrite (GetToken_nil st E).
Qed.

Lemma wf_ExchangeCodeForToken (W : World) (code : string) (st : State) :
  wf st → wf (ExchangeCodeForToken W code st).2.
Proof.
  intros H. unfold ExchangeCodeForToken. run.
  destruct (oauth_Exchange W _ code) as [err|t]; cbn; [done|].
  unfold wf. cbn. rewrite lookup_insert_eq. by eexists.
Qed.

Lemma wf_GetYouTubeService (W : World) (st : State) :
  wf st → wf (GetYouTubeService W st).2.
Proof.
  intros H. unfold GetYouTubeService, mbind, M_bind.
  destruct (ts_token st) as [p|] eqn:E.
  - rewrite (GetToken_copy st p E). run.
    pose proof (wf_insert st (fresh (dom (heap st))) (heap st !!! p) (trace st) H) as H1.
    rewrite E in H1.
    destruct (oauth_Token W _ _) as [|t|err]; cbn.
    + rewrite bool_decide_eq_false_2 by (by intros ?). cbn.
      by destruct (youtube_NewService W _ _).
    + case_bool_decide; cbn; destruct (youtube_NewService W _ _); cbn;
        try (unfold wf; cbn; rewrite lookup_insert_eq; by eexists);
        exact (wf_insert (mkState _ _ (trace st)) _ _ [] H1).
    + done.
  - by rewrite (GetToken_nil st E).
Qed.

Lemma wf_refresher_tick (W : World) (st : State) :
  wf st → wf (refresher_tick W st).2.
Proof.
  intros H. unfold refresher_tick, mbind, M_bind.
  destruct (ts_token st) as [p|] eqn:E.
  - rewrite (GetToken_copy st p E). run.
    pose proof (wf_insert st (fresh (dom (heap st))) (heap st !!! p) (trace st) H) as H1.
    rewrite E in H1.
    destruct (negb _ || _); [|done].
    destruct (oauth_Token W _ _) as [|t|err]; cbn; unfold wf; cbn;
      [rewrite lookup_insert_eq; by eexists ..|done].
  - by rewrite (GetToken_nil st E).
Qed.

Lemma wf_refresher_loop (W : World) (sel : list Select) :
  ∀ st, wf st → wf (refresher_loop W sel st).2.
Proof.
  induction sel as [|[|] sel IH]; intros st H; [done|done|].
  cbn [refresher_loop]. unfold mbind, M_bind.
  pose proof (wf_refresher_tick W st H) as Ht.
  destruct (refresher_tick W st) as [[] st1]. by apply IH.
Qed.

(** *** The background refresher *)

(** A tick creates no ticker. *)
Lemma refresher_tick_tickers (W : World) (st : State) :
  tickers (trace (refresher_tick W st).2) = tickers (trace st).
Proof.
  unfold refresher_tick, mbind, M_bind.
  destruct (ts_token st) as [p|] eqn:E.
  - rewrite (GetToken_copy st p E). run.
    destruct (negb _ || _); [|done].
    destruct (oauth_Token W _ _); cbn; by traces.
  - by rewrite (GetToken_nil st E).
Qed.

Lemma refresher_loop_tickers (W : World) (sel : list Select) :
  ∀ st, tickers (trace (refresher_loop W sel st).2) = tickers (trace st).
Proof.
  induction sel as [|[|] sel IH]; intros st; [done|done|].
  cbn [refresher_loop]. unfold mbind, M_bind.
  pose proof (refresher_tick_tickers W st) as Ht.
  destruct (refresher_tick W st) as [[] st1]. cbn in Ht.
  by rewrite IH.
Qed.

(** One tick, for any token source: the refresher creates one ticker of
    period 15 minutes; a tick with no stored credential changes nothing; a
    tick that takes the refresh branch asks the token source once, and then
    the slot is nil if the source failed and holds what it returned
    otherwise. *)
Lemma refresher_tick_outcome (W : World) (st : State) (p : loc) (sel : list Select) :
  let token := fresh (dom (heap st)) in
  let t := heap st !!! p in
  let st1 := (GetToken st).2 in
  let asked := (emit (EvToken token) (log "Proactively refreshing token..." st1).2).2 in
  let st' := (refresher_tick W st).2 in
  (tickerPeriod = (15 * 60 * 1000000000)%Z
   ∧ tickers (trace (TokenRefresher W sel st).2)
       = tickers (trace st) ++ [EvNewTicker (15 * Minute)%Z])
  ∧ (ts_token st = None → refresher_tick W st = (tt, st))
  ∧ (ts_token st = Some p →
     negb (oauth_Valid W st1 t) || (Expiry t <? time_Now W st1 + 30 * Minute)%Z = true →
     refreshes (trace st') = refreshes (trace st) ++ [EvToken token]
     ∧ match oauth_Token W asked token with
       | TokErr _ => ts_token st' = None ∧ (IsAuthenticated st').1 = false
       | TokSame => ts_token st' = Some token ∧ heap st' !! token = Some t
       | TokNew t' => ∃ q, ts_token st' = Some q ∧ heap st' !! q = Some t'
       end).
Proof.
  cbv zeta. split; [split; [done|]|split].
  - unfold TokenRefresher, mbind, M_bind. run.
    pose proof (refresher_loop_tickers W sel
      (mkState (heap st) (ts_token st)
         ((trace st ++ [EvLog "background token refresher started"])
            ++ [EvNewTicker tickerPeriod]))) as Hl.
    destruct (refresher_loop W sel _) as [[] st2]; cbn in *; traces; rewrite Hl; by traces.
  - intros H. unfold refresher_tick, mbind, M_bind. by rewrite (GetToken_nil st H).
  - intros Hp Hcond. unfold refresher_tick, mbind, M_bind.
    rewrite (GetToken_copy st p Hp) in *. run. cbn in Hcond.
    rewrite lookup_total_insert_eq, Hcond. cbn.
    destruct (oauth_Token W _ _) as [|t'|err]; cbn; traces.
    + split; [done|]. split; [done|]. by rewrite lookup_insert_eq.
    + split; [done|]. eexists. split; [done|]. by rewrite lookup_insert_eq.
    + split; [done|]. split; [done|].
      apply not_true_iff_false. rewrite (proj1 (IsAuthenticated_spec _)). cbn. by intros ?.
Qed.

(** C5. What the code does, with a token source that keeps its promise.
    The refresher creates one ticker, of period 15 minutes, and its loop
    serves every tick with the same body. A tick with no stored credential
    does nothing. A tick that finds a credential which is not valid asks the
    token source, which goes to the provider: on an error the slot is set
    to nil and [IsAuthenticated()] is false afterwards, on success the new
    token is stored. A tick that finds a credential which is still valid
    and expires within the next 30 minutes announces a refresh and asks the
    token source, which hands the same token back: no refresh happens, the
    slot is set to the copy just read, with the access token and the expiry
    it had, and the log reports a refresh. *)
Theorem C5_refresher_does_not_refresh_a_valid_token
    (W : World) (st : State) (p : loc) (sel : list Select) :
  oauth2_library.contract W →
  let started := oauth2_library.started st in
  let token := fresh (dom (heap st)) in
  let t := heap st !!! p in
  let st1 := (GetToken started).2 in
  let asked := (emit (EvToken token) (log "Proactively refreshing token..." st1).2).2 in
  let st' := (TokenRefresher W [Tick] st).2 in
  (tickerPeriod = (15 * 60 * 1000000000)%Z
   ∧ tickers (trace (TokenRefresher W sel st).2)
     = tickers (trace st) ++ [EvNewTicker (15 * Minute)%Z]
   ∧ refresher_loop W (Tick :: sel) st = refresher_loop W sel (refresher_tick W st).2
   ∧ st' = (refresher_tick W started).2)
  ∧ (ts_token st = None → st' = started)
  ∧ (ts_token st = Some p →
     (oauth_Valid W st1 t = false → oauth_Valid W asked t = false →
      refreshes (trace st') = refreshes (trace st) ++ [EvToken token]
      ∧ match oauth_Token W asked token with
        | TokErr _ => ts_token st' = None ∧ (IsAuthenticated st').1 = false
        | TokNew t' => ∃ q, ts_token st' = Some q ∧ heap st' !! q = Some t'
        | TokSame => False
        end)
     ∧ (oauth_Valid W st1 t = true → oauth_Valid W asked t = true →
        (Expiry t <? time_Now W st1 + 30 * Minute)%Z = true →
        oauth_Token W asked token = TokSame
        ∧ ts_token st' = Some token
        ∧ heap st' !! token = Some t
        ∧ trace st'
          = trace started
            ++ [EvLog "Proactively refreshing token..."; EvToken token;
                EvSetToken (Some token);
                EvLog "✅ Token proactively refreshed in the background."])).
Proof.
  intros Hlib. cbv zeta.
  assert (Hone : (TokenRefresher W [Tick] st).2
                 = (refresher_tick W (oauth2_library.started st)).2).
  { unfold TokenRefresher, oauth2_library.started, mbind, M_bind. run.
    unfold mbind, M_bind. by destruct (refresher_tick W _) as [[] st2]. }
  split; [split; [done|split; [|split; [|done]]]|split].
  - apply (refresher_tick_outcome W st p sel).
  - cbn [refresher_loop]. unfold mbind, M_bind.
    by destruct (refresher_tick W st) as [[] st2].
  - intros Hn. rewrite Hone.
    unfold refresher_tick, mbind, M_bind. by rewrite GetToken_nil.
  - intros Hp. rewrite Hone.
    assert (Hps : ts_token (oauth2_library.started st) = Some p) by done.
    assert (Hcopy :
      heap (emit (EvToken (fresh (dom (heap st))))
              (log "Proactively refreshing token..."
                 (GetToken (oauth2_library.started st)).2).2).2
        !!! fresh (dom (heap st)) = heap st !!! p).
    { rewrite (GetToken_copy _ p Hps). cbn. by rewrite lookup_total_insert_eq. }
    pose proof (Hlib (emit (EvToken (fresh (dom (heap st))))
                        (log "Proactively refreshing token..."
                           (GetToken (oauth2_library.started st)).2).2).2
                     (fresh (dom (heap st)))) as Hsrc.
    rewrite Hcopy in Hsrc. revert Hsrc.
    unfold refresher_tick, mbind, M_bind.
    rewrite (GetToken_copy _ p Hps). run. rewrite lookup_total_insert_eq.
    intros Hsrc. split.
    + intros Hv1 Hv2. rewrite Hv1. cbn.
      destruct (oauth_Token W _ _) as [|t'|err] eqn:Htok; cbn; traces.
      * destruct Hsrc as [Hsrc _]. rewrite Hsrc in Hv2; done.
      * split; [done|]. eexists. split; [done|]. by rewrite lookup_insert_eq.
      * split; [done|]. split; [done|].
        apply not_true_iff_false. rewrite (proj1 (IsAuthenticated_spec _)). cbn.
        by intros ?.
    + intros Hv1 Hv2 Hexp. rewrite Hv1, Hexp. cbn.
      destruct Hsrc as [_ Hsrc]. rewrite (Hsrc Hv2). cbn.
      split; [done|]. split; [done|]. split; [by rewrite lookup_insert_eq|].
      by rewrite <- !app_assoc.
Qed.

Lemma C5_refresher_does_not_refresh_a_valid_token_witness :
  let W := world TokSame true 2400000000000%Z None in
  oauth2_library.contract W
  ∧ ts_token held = Some 1%positive
  ∧ (Expiry tokA <? 2400000000000 + 30 * Minute)%Z = true
  ∧ ts_token (TokenRefresher W [Tick] held).2 = Some 2%positive
  ∧ heap (TokenRefresher W [Tick] held).2 !! 2%positive = Some tokA.
Proof.
  assert (Hlib : oauth2_library.contract (world TokSame true 2400000000000%Z None))
    by (intros st p; split; reflexivity).
  split; [exact Hlib|]. split; [reflexivity|]. split; [reflexivity|].
  pose proof (C5_refresher_does_not_refresh_a_valid_token
                (world TokSame true 2400000000000%Z None) held 1%positive [] Hlib) as H.
  cbv zeta in H. destruct H as (_ & _ & H).
  destruct (H eq_refl) as [_ Hvalid].
  destruct (Hvalid eq_refl eq_refl eq_refl) as (_ & Hslot & Hheap & _).
  split; [exact Hslot|exact Hheap].
Defined.

End session.

(** ** The tool dispatcher *)

Module dispatcher.
Import service api sample.

Section Handler.
Context (W : World) (J : Codec).

(** The three ways an argument can be missing or invalid. *)
Lemma lacks_cases (args : gmap string value) (arg : string) :
  lacks args arg ↔
    args !! arg = None
    ∨ args !! arg = Some (VString "")
    ∨ (∃ v, args !! arg = Some v ∧ ∀ s, v ≠ VString s).
Proof.
  unfold lacks. split.
  - intros H. destruct (args !! arg) as [v|] eqn:E; [|by left].
    right. destruct v as [|b|f|s|l|m];
      try (right; eexists; split; [done|]; by intros s').
    left. by rewrite (H s).
  - intros [H|[H|(v & H & Hv)]] s Hs; rewrite H in Hs; [done|by injection Hs|].
    injection Hs as ->. by destruct (Hv s).
Qed.

Lemma assert_string_lacks (args : gmap string value) (arg : string) :
  lacks args arg → (assert_string (args !! arg)).1 = ""%string.
Proof.
  intros H. destruct (args !! arg) as [[|b|f|s|l|m]|] eqn:E; try done.
  cbn. by apply H.
Qed.

(** The table [required_of] is the one the advertised schemas carry. *)
Lemma required_of_schema (req : MCPRequest) (tool : Tool) :
  tool ∈ catalog (handleToolsList req) →
  ∃ arg, required_of (Tool_Name tool) = Some arg
         ∧ InputSchema tool !! "required"%string = Some (VArray [VString arg]).
Proof.
  unfold handleToolsList, catalog. cbn. intros H.
  repeat (apply elem_of_cons in H as [-> | H]);
    [by eexists ..|by apply elem_of_nil in H].
Qed.

(** A tool handler answers with a result, never with a protocol error. *)
Lemma respond_no_error (id : value) (r : error + value) : Error (respond id r) = None.
Proof. by destruct r. Qed.

Lemma handleGetVideoMetadata_no_error (id : value) (params : ToolsCallParams) (st : State) :
  Error (handleGetVideoMetadata W id params st).1 = None.
Proof.
  unfold handleGetVideoMetadata.
  destruct (assert_string _) as [videoID ok]. case_bool_decide; [done|].
  unfold mbind, M_bind. destruct (GetVideoMetadata W videoID st) as [r st'].
  apply respond_no_error.
Qed.

Lemma handleSearchVideos_no_error (id : value) (params : ToolsCallParams) (st : State) :
  Error (handleSearchVideos W J id params st).1 = None.
Proof.
  unfold handleSearchVideos.
  destruct (assert_string (_ !! "query"%string)) as [query ok]. case_bool_decide; [done|].
  destruct (assert_string _) as [channelID ok']. destruct (assert_float64 _) as [limit ok''].
  unfold mbind, M_bind. destruct (SearchVideos W query channelID _ st) as [r st'].
  apply respond_no_error.
Qed.

Lemma handleGetVideoComments_no_error (id : value) (params : ToolsCallParams) (st : State) :
  Error (handleGetVideoComments W J id params st).1 = None.
Proof.
  unfold handleGetVideoComments.
  destruct (assert_string (_ !! "video_id"%string)) as [videoID ok]. case_bool_decide; [done|].
  destruct (assert_string _) as [sortBy ok']. destruct (assert_float64 _) as [limit ok''].
  unfold mbind, M_bind. destruct (GetVideoComments W videoID _ _ st) as [r st'].
  apply respond_no_error.
Qed.

Lemma HandleMCP_tools_call (req : MCPRequest) (st : State) :
  Req_Method req = "tools/call"%string → HandleMCP W J req None st = handleToolsCall W J req st.
Proof. intros Hm. unfold HandleMCP. by rewrite Hm. Qed.

(** C6, as the code has it. A tools/call whose params decode and whose tool
    lacks its required argument (absent, not a string, or empty) is answered
    with a successful response carrying the tool-result error
    "<argument> is required", the state untouched; it is not a protocol
    error. A tools/call is answered with code -32602 exactly when its params
    do not decode. *)
Theorem C6_missing_argument_is_tool_error
    (req : MCPRequest) (st : State) (toolParams : ToolsCallParams) (arg : string) :
  Req_Method req = "tools/call"%string →
  (decodeParams J (Req_Params req) = inr toolParams →
   required_of (Name toolParams) = Some arg →
   lacks (Arguments toolParams) arg →
   HandleMCP W J req None st = (sendToolError (Req_ID req) (arg +:+ " is required"), st)
   ∧ is_tool_error (HandleMCP W J req None st).1
   ∧ ¬ is_protocol_error (-32602) (HandleMCP W J req None st).1)
  ∧ (is_protocol_error (-32602) (HandleMCP W J req None st).1
     ↔ ∃ err, decodeParams J (Req_Params req) = inl err).
Proof.
  intros Hm. rewrite (HandleMCP_tools_call req st Hm). unfold handleToolsCall. split.
  - intros Hd Hreq Hl. rewrite Hd.
    assert (Hs := assert_string_lacks _ _ Hl).
    unfold required_of in Hreq.
    assert (Hgoal : ∀ r : MCPResponse * State,
      r = (sendToolError (Req_ID req) (arg +:+ " is required"), st) →
      r = (sendToolError (Req_ID req) (arg +:+ " is required"), st)
      ∧ is_tool_error r.1 ∧ ¬ is_protocol_error (-32602) r.1).
    { intros r ->. split; [done|]. split; [split; [done|by eexists]|].
      by intros [? _]. }
    apply Hgoal. clear Hgoal.
    repeat case_bool_decide; try done; injection Hreq as <-.
    + unfold handleGetVideoMetadata. destruct (assert_string _) as [videoID ok].
      cbn in Hs. subst videoID. done.
    + unfold handleSearchVideos. destruct (assert_string _) as [query ok].
      cbn in Hs. subst query. done.
    + unfold handleGetVideoComments. destruct (assert_string _) as [videoID ok].
      cbn in Hs. subst videoID. done.
  - destruct (decodeParams J (Req_Params req)) as [err|toolParams'] eqn:Hd.
    + split; [by eexists|]. intros _. split; [done|]. by eexists.
    + split; [|by intros [? ?]].
      intros [_ (e & He & Hc)]. exfalso. revert He Hc.
      repeat case_bool_decide.
      * by rewrite handleGetVideoMetadata_no_error.
      * by rewrite handleSearchVideos_no_error.
      * by rewrite handleGetVideoComments_no_error.
      * cbn. by intros [= <-].
Qed.

(** C7. What the code does with the catalog: tools/list advertises
    [get_video_metadata], [search_videos] and [get_video_comments], and no
    other tool; a tools/call naming one of these three goes to its handler;
    a tools/call naming [reply_to_comment] or [add_video_to_playlist] is
    answered "Unknown tool", code -32601, and nothing else happens. *)
Theorem C7_catalog_of_the_handler
    (req : MCPRequest) (st : State) (toolParams : ToolsCallParams) :
  advertised (handleToolsList req)
    = ["get_video_metadata"; "search_videos"; "get_video_comments"]%string
  ∧ (decodeParams J (Req_Params req) = inr toolParams →
     (Name toolParams = "get_video_metadata"%string →
      handleToolsCall W J req st = handleGetVideoMetadata W (Req_ID req) toolParams st)
     ∧ (Name toolParams = "search_videos"%string →
        handleToolsCall W J req st = handleSearchVideos W J (Req_ID req) toolParams st)
     ∧ (Name toolParams = "get_video_comments"%string →
        handleToolsCall W J req st = handleGetVideoComments W J (Req_ID req) toolParams st)
     ∧ (Name toolParams = "reply_to_comment"%string
        ∨ Name toolParams = "add_video_to_playlist"%string →
        handleToolsCall W J req st
          = (sendErrorResponse (Req_ID req) (-32601) "Unknown tool" VNil, st))).
Proof.
  split; [done|]. intros Hd. unfold handleToolsCall. rewrite Hd.
  repeat split.
  - by intros ->.
  - by intros ->.
  - by intros ->.
  - by intros [-> | ->].
Qed.

(** C8. [search_videos] called with a [query] that is absent, empty or not
    a string is answered with the tool-result error "query is required", a
    successful response with [isError] set and one text item; the state
    comes back as it was, so the YouTube service was not invoked and no
    call left the server. *)
Theorem C8_search_without_query (id : value) (params : ToolsCallParams) (st : State) :
  Arguments params !! "query"%string = None
  ∨ Arguments params !! "query"%string = Some (VString "")
  ∨ (∃ v, Arguments params !! "query"%string = Some v ∧ ∀ s, v ≠ VString s) →
  handleSearchVideos W J id params st = (sendToolError id "query is required", st)
  ∧ is_tool_error (handleSearchVideos W J id params st).1
  ∧ trace (handleSearchVideos W J id params st).2 = trace st.
Proof.
  intros H. apply lacks_cases, assert_string_lacks in H.
  assert (Hrun : handleSearchVideos W J id params st
                 = (sendToolError id "query is required", st)).
  { unfold handleSearchVideos. destruct (assert_string _) as [query ok].
    cbn in H. by subst query. }
  rewrite Hrun. split; [done|]. split; [|done]. split; [done|by eexists].
Qed.

Lemma assert_float64_defaulted (args : gmap string value) (n : Z) :
  limit_defaulted args →
  (let '(limit, ok) := assert_float64 (args !! "limit"%string) in
   if negb ok || float64_is_zero limit then float64_const n else limit) = float64_const n.
Proof.
  intros [H|[(v & H & Hv)|(sign & H)]]; rewrite H; [done| |by destruct sign].
  destruct v; try done. by destruct (Hv f).
Qed.

Lemma assert_string_sort_by (args : gmap string value) :
  sort_by_defaulted args → (assert_string (args !! "sort_by"%string)).1 = ""%string.
Proof. by intros [H|H]; rewrite H. Qed.

(** C9. In [get_video_comments], given a [video_id], the comments are
    fetched with order "top" when [sort_by] is omitted or empty, and with
    limit 20 when [limit] is absent, not a number or exactly zero, each
    default applying whatever the other argument is; in [search_videos],
    given a [query], the same rule puts the limit at 10. A request with
    [limit] zero, of either sign, is handled as the same request without
    [limit]. *)
Theorem C9_defaults (id : value) (name : string) (args : gmap string value)
    (arg sortBy : string) (f : spec_float) (sign : bool) (st : State) :
  arg ≠ ""%string →
  (args !! "video_id"%string = Some (VString arg) →
   (sort_by_defaulted args → limit_defaulted args →
    handleGetVideoComments W J id (mkParams name args) st
      = (r ← GetVideoComments W arg "top" 20; mret (respond id r)) st)
   ∧ (sort_by_defaulted args →
      args !! "limit"%string = Some (VFloat64 f) → float64_is_zero f = false →
      handleGetVideoComments W J id (mkParams name args) st
        = (r ← GetVideoComments W arg "top" (int64 J f); mret (respond id r)) st)
   ∧ (args !! "sort_by"%string = Some (VString sortBy) → sortBy ≠ ""%string →
      limit_defaulted args →
      handleGetVideoComments W J id (mkParams name args) st
        = (r ← GetVideoComments W arg sortBy 20; mret (respond id r)) st))
  ∧ (args !! "query"%string = Some (VString arg) → limit_defaulted args →
     handleSearchVideos W J id (mkParams name args) st
       = (r ← SearchVideos W arg (assert_string (args !! "channel_id"%string)).1 10;
          mret (respond id r)) st)
  ∧ handleGetVideoComments W J id
      (mkParams name (<["limit"%string := VFloat64 (S754_zero sign)]> args)) st
    = handleGetVideoComments W J id (mkParams name (delete "limit"%string args)) st
  ∧ handleSearchVideos W J id
      (mkParams name (<["limit"%string := VFloat64 (S754_zero sign)]> args)) st
    = handleSearchVideos W J id (mkParams name (delete "limit"%string args)) st.
Proof.
  intros Harg. split; [|split; [|split]].
  - intros Hv. unfold handleGetVideoComments. cbn [Arguments]. rewrite Hv. cbn [assert_string].
    rewrite bool_decide_eq_false_2 by done. repeat split.
    + intros Hs Hl. pose proof (assert_string_sort_by args Hs) as Hs'.
      pose proof (assert_float64_defaulted args 20 Hl) as Hl'.
      destruct (assert_string (args !! "sort_by"%string)) as [s ok]. cbn in Hs'. subst s.
      destruct (assert_float64 _) as [limit ok']. by rewrite Hl'.
    + intros Hs Hl Hz. pose proof (assert_string_sort_by args Hs) as Hs'.
      destruct (assert_string (args !! "sort_by"%string)) as [s ok]. cbn in Hs'. subst s.
      rewrite Hl. cbn [assert_float64 negb orb]. by rewrite Hz.
    + intros Hs Hne Hl. rewrite Hs. cbn [assert_string].
      rewrite bool_decide_eq_false_2 by done.
      pose proof (assert_float64_defaulted args 20 Hl) as Hl'.
      destruct (assert_float64 _) as [limit ok']. by rewrite Hl'.
  - intros Hq Hl. unfold handleSearchVideos. cbn [Arguments]. rewrite Hq. cbn [assert_string].
    rewrite bool_decide_eq_false_2 by done.
    pose proof (assert_float64_defaulted args 10 Hl) as Hl'.
    destruct (assert_string _) as [channelID ok].
    destruct (assert_float64 _) as [limit ok']. by rewrite Hl'.
  - unfold handleGetVideoComments. cbn [Arguments].
    rewrite lookup_insert_eq, lookup_delete_eq, !lookup_insert_ne, !lookup_delete_ne by done.
    by destruct sign.
  - unfold handleSearchVideos. cbn [Arguments].
    rewrite lookup_insert_eq, lookup_delete_eq, !lookup_insert_ne, !lookup_delete_ne by done.
    by destruct sign.
Qed.

End Handler.

(** C6, counterexample. [get_video_metadata] called with no [video_id]: the
    response has a result and no error object. *)
Lemma C6_counterexample :
  ¬ C6_as_stated (world TokSame true 0%Z None) codec (call "get_video_metadata" ∅) held.
Proof.
  intros H.
  destruct (H (mkParams "get_video_metadata" ∅) "video_id"%string
              eq_refl eq_refl eq_refl) as [Hres _].
  - by intros s.
  - vm_compute in Hres. discriminate Hres.
Qed.

Lemma C6_missing_argument_is_tool_error_witness :
  let W := world TokSame true 0%Z None in
  let req := call "search_videos" {[ "limit"%string := VFloat64 (float64_const 5) ]} in
  Req_Method req = "tools/call"%string
  ∧ HandleMCP W codec req None held = (sendToolError (Req_ID req) "query is required", held).
Proof.
  split; [reflexivity|].
  refine (proj1 (proj1 (C6_missing_argument_is_tool_error
            (world TokSame true 0%Z None) codec
            (call "search_videos" {[ "limit"%string := VFloat64 (float64_const 5) ]})
            held
            (mkParams "search_videos" {[ "limit"%string := VFloat64 (float64_const 5) ]})
            "query"%string eq_refl) eq_refl eq_refl _)).
  intros s Hs. vm_compute in Hs. discriminate Hs.
Defined.

Lemma C7_catalog_of_the_handler_witness :
  let W := world TokSame true 0%Z None in
  let args : gmap string value :=
    <[ "comment_id"%string := VString "Ugx1" ]> {[ "text"%string := VString "Thanks!" ]} in
  let req := call "reply_to_comment" args in
  decodeParams codec (Req_Params req) = inr (mkParams "reply_to_comment" args)
  ∧ advertised (HandleMCP W codec list_request None held).1
    = ["get_video_metadata"; "search_videos"; "get_video_comments"]%string
  ∧ handleToolsCall W codec req held
    = (sendErrorResponse (Req_ID req) (-32601) "Unknown tool" VNil, held).
Proof.
  split; [reflexivity|]. split; [reflexivity|].
  refine (proj2 (proj2 (proj2 (proj2 (C7_catalog_of_the_handler
            (world TokSame true 0%Z None) codec
            (call "reply_to_comment"
               (<[ "comment_id"%string := VString "Ugx1" ]>
                  {[ "text"%string := VString "Thanks!" ]}))
            held
            (mkParams "reply_to_comment"
               (<[ "comment_id"%string := VString "Ugx1" ]>
                  {[ "text"%string := VString "Thanks!" ]}))) eq_refl))) _).
  left. reflexivity.
Defined.

Lemma C8_search_without_query_witness :
  let W := world TokSame true 0%Z None in
  let params := mkParams "search_videos" {[ "query"%string := VFloat64 (float64_const 7) ]} in
  (∃ v, Arguments params !! "query"%string = Some v ∧ ∀ s, v ≠ VString s)
  ∧ handleSearchVideos W codec VNil params held = (sendToolError VNil "query is required", held).
Proof.
  assert (H : ∃ v, ({[ "query"%string := VFloat64 (float64_const 7) ]} : gmap string value)
                     !! "query"%string = Some v ∧ ∀ s, v ≠ VString s).
  { eexists. split; [reflexivity|]. intros s. discriminate. }
  split; [exact H|].
  apply (C8_search_without_query (world TokSame true 0%Z None) codec VNil
           (mkParams "search_videos" {[ "query"%string := VFloat64 (float64_const 7) ]}) held).
  right. right. exact H.
Defined.

Lemma C9_defaults_witness :
  let W := world TokSame true 0%Z None in
  let args : gmap string value :=
    <[ "video_id"%string := VString "kYB8IZa5AuE" ]>
      {[ "limit"%string := VFloat64 (S754_zero false) ]} in
  ("kYB8IZa5AuE" ≠ "")%string
  ∧ args !! "video_id"%string = Some (VString "kYB8IZa5AuE")
  ∧ sort_by_defaulted args ∧ limit_defaulted args
  ∧ handleGetVideoComments W codec VNil (mkParams "get_video_comments" args) held
    = (r ← GetVideoComments W "kYB8IZa5AuE" "top" 20; mret (respond VNil r)) held.
Proof.
  cbv zeta.
  set (args := (<[ "video_id"%string := VString "kYB8IZa5AuE" ]>
                  {[ "limit"%string := VFloat64 (S754_zero false) ]} : gmap string value)).
  assert (Hne : ("kYB8IZa5AuE" ≠ "")%string) by discriminate.
  assert (Hs : sort_by_defaulted args) by (left; reflexivity).
  assert (Hl : limit_defaulted args) by (right; right; exists false; reflexivity).
  split; [exact Hne|]. split; [reflexivity|]. split; [exact Hs|]. split; [exact Hl|].
  exact (proj1 (proj1 (C9_defaults (world TokSame true 0%Z None) codec VNil
                         "get_video_comments" args "kYB8IZa5AuE" "" (S754_zero false) false
                         held Hne) eq_refl) Hs Hl).
Defined.

End dispatcher.

(** ** The JSON-RPC envelope *)

Module envelope.
Import service api sample paths token_store session dispatcher.

Section Envelope.
Context (W : World) (J : Codec).

(** A tool handler always answers through [sendSuccessResponse]. *)
Lemma respond_success (id : value) (r : error + value) :
  ∃ payload, respond id r = sendSuccessResponse id payload.
Proof. destruct r; by eexists. Qed.

Lemma handleGetVideoMetadata_success (id : value) (params : ToolsCallParams) (st : State) :
  ∃ payload, (handleGetVideoMetadata W id params st).1 = sendSuccessResponse id payload.
Proof.
  unfold handleGetVideoMetadata.
  destruct (assert_string _) as [videoID ok]. case_bool_decide; [by eexists|].
  unfold mbind, M_bind. destruct (GetVideoMetadata W videoID st) as [r st'].
  apply respond_success.
Qed.

Lemma handleSearchVideos_success (id : value) (params : ToolsCallParams) (st : State) :
  ∃ payload, (handleSearchVideos W J id params st).1 = sendSuccessResponse id payload.
Proof.
  unfold handleSearchVideos.
  destruct (assert_string (_ !! "query"%string)) as [query ok].
  case_bool_decide; [by eexists|].
  destruct (assert_string _) as [channelID ok']. destruct (assert_float64 _) as [limit ok''].
  unfold mbind, M_bind. destruct (SearchVideos W query channelID _ st) as [r st'].
  apply respond_success.
Qed.

Lemma handleGetVideoComments_success (id : value) (params : ToolsCallParams) (st : State) :
  ∃ payload, (handleGetVideoComments W J id params st).1 = sendSuccessResponse id payload.
Proof.
  unfold handleGetVideoComments.
  destruct (assert_string (_ !! "video_id"%string)) as [videoID ok].
  case_bool_decide; [by eexists|].
  destruct (assert_string _) as [sortBy ok']. destruct (assert_float64 _) as [limit ok''].
  unfold mbind, M_bind. destruct (GetVideoComments W videoID _ _ st) as [r st'].
  apply respond_success.
Qed.

Lemma HandleMCP_path (req : MCPRequest) (err : option error) (st : State) :
  Path J req err st (HandleMCP W J req err st).
Proof.
  unfold HandleMCP. destruct err as [e|]; [by econstructor|].
  case_bool_decide as Hi; [by constructor|].
  case_bool_decide as Hl; [by constructor|].
  case_bool_decide as Hc.
  - unfold handleToolsCall.
    destruct (decodeParams J (Req_Params req)) as [e|toolParams] eqn:Hd;
      [by econstructor|].
    case_bool_decide as H1.
    { destruct (handleGetVideoMetadata_success (Req_ID req) toolParams st) as [payload Hp].
      destruct (handleGetVideoMetadata W _ _ st) as [resp st']. cbn in Hp. subst resp.
      eapply PathHandler; try done. rewrite H1. by repeat constructor. }
    case_bool_decide as H2.
    { destruct (handleSearchVideos_success (Req_ID req) toolParams st) as [payload Hp].
      destruct (handleSearchVideos W J _ _ st) as [resp st']. cbn in Hp. subst resp.
      eapply PathHandler; try done. rewrite H2. by repeat constructor. }
    case_bool_decide as H3.
    { destruct (handleGetVideoComments_success (Req_ID req) toolParams st) as [payload Hp].
      destruct (handleGetVideoComments W J _ _ st) as [resp st']. cbn in Hp. subst resp.
      eapply PathHandler; try done. rewrite H3. by repeat constructor. }
    eapply PathTool; try done. unfold tools. rewrite !not_elem_of_cons, elem_of_nil. tauto.
  - apply PathMethod; [done|]. unfold methods. rewrite !not_elem_of_cons, elem_of_nil. tauto.
Qed.

(** X1. Whatever the request, the response of [HandleMCP] carries version
    "2.0" and the id of the request as decoded, and exactly one of a result
    and an error object. *)
Theorem X1_response_envelope (req : MCPRequest) (err : option error) (st : State) :
  let resp := (HandleMCP W J req err st).1 in
  Resp_JSONRPC resp = "2.0"%string
  ∧ Resp_ID resp = Req_ID req
  ∧ ((is_Some (Result resp) ∧ Error resp = None)
     ∨ (Result resp = None ∧ is_Some (Error resp))).
Proof.
  cbv zeta. pose proof (HandleMCP_path req err st) as H.
  destruct (HandleMCP W J req err st) as [resp st'].
  inversion H; subst; cbn; (split; [done|]); (split; [done|]);
    first [left; by split | right; by split].
Qed.

Ltac absurd_member :=
  match goal with
  | H : ?x ∉ ?l, E : ?x = _ |- _ =>
      exfalso; apply H; rewrite E; by repeat constructor
  | H : ?x ∈ ?l, H' : ?x ∉ ?l |- _ => by destruct (H' H)
  end.

(** X2. The protocol errors of [HandleMCP] and when each arises: -32700
    exactly when the body did not decode, whatever the method; -32602
    exactly on a tools/call whose params do not decode; -32601 exactly on an
    unknown method or a tools/call naming an unknown tool. No other code is
    ever sent, and a request answered with an error object leaves the state
    as it was. *)
Theorem X2_protocol_error_codes (req : MCPRequest) (err : option error) (st : State) :
  let resp := (HandleMCP W J req err st).1 in
  (is_protocol_error (-32700) resp ↔ is_Some err)
  ∧ (is_protocol_error (-32602) resp ↔
       err = None ∧ Req_Method req = "tools/call"%string
       ∧ ∃ e, decodeParams J (Req_Params req) = inl e)
  ∧ (is_protocol_error (-32601) resp ↔
       err = None
       ∧ (Req_Method req ∉ methods
          ∨ (Req_Method req = "tools/call"%string
             ∧ ∃ p, decodeParams J (Req_Params req) = inr p ∧ Name p ∉ tools)))
  ∧ (∀ e, Error resp = Some e →
       Code e ∈ [-32700; -32602; -32601]%Z ∧ (HandleMCP W J req err st).2 = st).
Proof.
  cbv zeta. pose proof (HandleMCP_path req err st) as H.
  destruct (HandleMCP W J req err st) as [resp st'].
  unfold is_protocol_error.
  inversion H as [e He|Hn Hm|Hn Hm|Hn Hm|e Hn Hm Hd|p Hn Hm Hd Ht|p payload st'' Hn Hm Hd Ht];
    subst; cbn.
  - split; [split; [by eauto|intros _; split; [done|by eexists]]|].
    split; [split; [by intros (_ & ? & [= <-] & [=])|by intros [[=] _]]|].
    split; [split; [by intros (_ & ? & [= <-] & [=])|by intros [[=] _]]|].
    intros e' [= <-]. cbn. split; [by repeat constructor|done].
  - split; [split; [by intros [[=] _]|by intros [? [=]]]|].
    split; [split; [by intros [[=] _]|]|].
    { intros (_ & Hc & _). by rewrite Hm in Hc. }
    split; [split; [by intros [[=] _]|]|by intros e [=]].
    intros (_ & [Hu|[Hc _]]); [absurd_member|by rewrite Hm in Hc].
  - split; [split; [by intros [[=] _]|by intros [? [=]]]|].
    split; [split; [by intros [[=] _]|]|].
    { intros (_ & Hc & _). by rewrite Hm in Hc. }
    split; [split; [by intros [[=] _]|]|by intros e [=]].
    intros (_ & [Hu|[Hc _]]); [absurd_member|by rewrite Hm in Hc].
  - split; [split; [by intros (_ & ? & [= <-] & [=])|by intros [? [=]]]|].
    split; [split; [by intros (_ & ? & [= <-] & [=])|]|].
    { intros (_ & Hc & _). absurd_member. }
    split; [split; [by auto|intros _; split; [done|by eexists]]|].
    intros e' [= <-]. cbn. split; [by repeat constructor|done].
  - split; [split; [by intros (_ & ? & [= <-] & [=])|by intros [? [=]]]|].
    split; [split; [by eauto|intros _; split; [done|by eexists]]|].
    split; [split; [by intros (_ & ? & [= <-] & [=])|]|].
    { intros (_ & [Hu|(_ & p & Hp & _)]); [absurd_member|congruence]. }
    intros e' [= <-]. cbn. split; [by repeat constructor|done].
  - split; [split; [by intros (_ & ? & [= <-] & [=])|by intros [? [=]]]|].
    split; [split; [by intros (_ & ? & [= <-] & [=])|]|].
    { intros (_ & _ & e' & He'). congruence. }
    split; [split; [by eauto 8|intros _; split; [done|by eexists]]|].
    intros e' [= <-]. cbn. split; [by repeat constructor|done].
  - split; [split; [by intros [[=] _]|by intros [? [=]]]|].
    split; [split; [by intros [[=] _]|]|].
    { intros (_ & _ & e' & He'). congruence. }
    split; [split; [by intros [[=] _]|]|by intros e [=]].
    intros (_ & [Hu|(_ & p' & Hp' & Hnt)]); [absurd_member|].
    rewrite Hd in Hp'. injection Hp' as <-. absurd_member.
Qed.

End Envelope.

End envelope.

(** ** What a tool call can cost *)

Module effects.
Import service api sample observe paths token_store session dispatcher envelope.

Lemma filter_snoc (f : Event → bool) (tr : list Event) (e : Event) :
  filter f (tr ++ [e]) = filter f tr ++ (if f e then [e] else []).
Proof. rewrite filter_app. f_equal. cbn. by destruct (f e). Qed.

Ltac count :=
  unfold spends, exchanges, calls, refreshes, writes, clients; cbn;
  rewrite ?filter_snoc; cbn; rewrite ?app_nil_r, ?length_app; cbn;
  repeat split; try done; lia.

Lemma spends_refl (st : State) (n : nat) : spends st st n.
Proof. count. Qed.

Section Effects.
Context (W : World) (J : Codec).

Lemma GetYouTubeService_spends (st : State) :
  spends st (GetYouTubeService W st).2 0.
Proof.
  unfold GetYouTubeService, mbind, M_bind.
  destruct (ts_token st) as [p|] eqn:E.
  - rewrite (GetToken_copy st p E). run.
    destruct (oauth_Token W _ _) as [|t|err]; cbn; [| |count];
      case_bool_decide; cbn; destruct (youtube_NewService W _ _); cbn; count.
  - rewrite (GetToken_nil st E). count.
Qed.

Lemma withService_spends (call : ApiCall) (failed : string) (st : State) :
  spends st (withService W call failed st).2 1.
Proof.
  unfold withService, mbind, M_bind.
  pose proof (GetYouTubeService_spends st) as H.
  destruct (GetYouTubeService W st) as [[err|youtubeService] st1]; cbn in *.
  - unfold spends in *. destruct H as (? & ? & ? & ? & ?). repeat split; [done|lia|done..].
  - unfold Do. run. destruct (youtube_Do W _ _ _); cbn;
      unfold spends, exchanges, calls, refreshes, writes, clients in *; cbn;
      rewrite ?filter_snoc; cbn; rewrite ?app_nil_r, ?length_app; cbn;
      destruct H as (? & ? & ? & ? & ?); repeat split; try done; lia.
Qed.

Lemma handleToolsCall_spends (req : MCPRequest) (st : State) :
  spends st (handleToolsCall W J req st).2 1.
Proof.
  unfold handleToolsCall.
  destruct (decodeParams J (Req_Params req)) as [e|toolParams]; [apply spends_refl|].
  repeat case_bool_decide; [| | |apply spends_refl].
  - unfold handleGetVideoMetadata. destruct (assert_string _) as [videoID ok].
    case_bool_decide; [apply spends_refl|]. unfold mbind, M_bind, GetVideoMetadata.
    pose proof (withService_spends (VideosList videoID) "failed to get video metadata" st).
    by destruct (withService W _ _ st).
  - unfold handleSearchVideos. destruct (assert_string (_ !! "query"%string)) as [query ok].
    case_bool_decide; [apply spends_refl|].
    destruct (assert_string _) as [channelID ok']. destruct (assert_float64 _) as [limit ok''].
    unfold mbind, M_bind, SearchVideos.
    match goal with |- context [withService W ?c ?f st] =>
      pose proof (withService_spends c f st); by destruct (withService W c f st) end.
  - unfold handleGetVideoComments.
    destruct (assert_string (_ !! "video_id"%string)) as [videoID ok].
    case_bool_decide; [apply spends_refl|].
    destruct (assert_string _) as [sortBy ok']. destruct (assert_float64 _) as [limit ok''].
    unfold mbind, M_bind, GetVideoComments.
    match goal with |- context [withService W ?c ?f st] =>
      pose proof (withService_spends c f st); by destruct (withService W c f st) end.
Qed.

(** X3. Serving one request, [HandleMCP] issues at most one YouTube API
    call, asks the token source at most once, writes the token holder at
    most once, builds at most one client, and never exchanges a code. *)
Theorem X3_one_call_per_request (req : MCPRequest) (err : option error) (st : State) :
  spends st (HandleMCP W J req err st).2 1.
Proof.
  unfold HandleMCP. destruct err; [apply spends_refl|].
  repeat case_bool_decide; try apply spends_refl.
  apply handleToolsCall_spends.
Qed.

Lemma withService_nil (call : ApiCall) (failed : string) (st : State) :
  ts_token st = None →
  withService W call failed st =
    (inl "failed to get YouTube service: not authenticated with Google; please visit /oauth/authorize"%string,
     st).
Proof.
  intros H. unfold withService, GetYouTubeService, mbind, M_bind.
  by rewrite (GetToken_nil st H).
Qed.

Lemma withService_refresh_failed (call : ApiCall) (failed : string) (st : State)
    (p : loc) (e : error) :
  ts_token st = Some p →
  oauth_Token W (emit (EvToken (fresh (dom (heap st)))) (GetToken st).2).2
    (fresh (dom (heap st))) = TokErr e →
  withService W call failed st =
    (inl ("failed to get YouTube service: failed to retrieve or refresh token: " +:+ e),
     (emit (EvToken (fresh (dom (heap st)))) (GetToken st).2).2).
Proof.
  intros Hp. rewrite (GetToken_copy st p Hp). cbn. intros He.
  unfold withService, GetYouTubeService, mbind, M_bind.
  rewrite (GetToken_copy st p Hp). run. by rewrite He.
Qed.

(** X4. The five methods of [YouTubeService] without a client. With no
    credential held each returns "failed to get YouTube service: not
    authenticated with Google; please visit /oauth/authorize" and leaves the
    state as it was. With a credential held and a token source that fails,
    each returns the source's error behind "failed to get YouTube service:
    failed to retrieve or refresh token"; the token source was asked once,
    no API call was issued and the credential is still the one held. *)
Theorem X4_service_methods_without_client (st : State) (a b : string) (n : Z) :
  let methods : list (M (error + value)) :=
    [SearchVideos W a b n; GetVideoMetadata W a; GetVideoComments W a b n;
     ReplyToComment W a b; AddVideoToPlaylist W a b] in
  let token := fresh (dom (heap st)) in
  let asked := (emit (EvToken token) (GetToken st).2).2 in
  (ts_token st = None →
   Forall (λ method, method st =
     (inl "failed to get YouTube service: not authenticated with Google; please visit /oauth/authorize"%string,
      st)) methods)
  ∧ (∀ p e, ts_token st = Some p → oauth_Token W asked token = TokErr e →
     Forall (λ method, method st =
       (inl ("failed to get YouTube service: failed to retrieve or refresh token: " +:+ e),
        asked)) methods
     ∧ ts_token asked = Some p
     ∧ trace asked = trace st ++ [EvToken token]).
Proof.
  cbv zeta. split.
  - intros H. repeat constructor; by apply withService_nil.
  - intros p e Hp He. split.
    + repeat constructor; by eapply withService_refresh_failed.
    + rewrite (GetToken_copy st p Hp). by cbn.
Qed.

(** The handlers' reading of the arguments, against [string_arg] and
    [limit_arg]. *)
Lemma assert_string_arg (args : gmap string value) (key : string) :
  string_arg args key =
    if bool_decide ((assert_string (args !! key)).1 = ""%string) then None
    else Some (assert_string (args !! key)).1.
Proof.
  unfold string_arg. destruct (args !! key) as [[| | |s| |]|]; try done.
Qed.

Lemma assert_limit_arg (args : gmap string value) (d : Z) :
  int64 J (float64_const d) = d →
  int64 J (let '(limit, ok) := assert_float64 (args !! "limit"%string) in
           if negb ok || float64_is_zero limit then float64_const d else limit)
  = limit_arg J args d.
Proof.
  intros Hd. unfold limit_arg.
  destruct (args !! "limit"%string) as [[| |f| | |]|]; try done.
  cbn. by destruct (float64_is_zero f).
Qed.

Lemma handleToolsCall_refines (req : MCPRequest) (st : State) (toolParams : ToolsCallParams)
    (call : ApiCall) (failed : string) :
  decodeParams J (Req_Params req) = inr toolParams →
  expected_call J (Name toolParams) (Arguments toolParams) = Some (call, failed) →
  handleToolsCall W J req st
  = (r ← withService W call failed; mret (respond (Req_ID req) r)) st.
Proof.
  intros Hd. unfold handleToolsCall, expected_call. rewrite Hd.
  repeat case_bool_decide; [| | |done].
  - unfold handleGetVideoMetadata. rewrite assert_string_arg.
    destruct (assert_string _) as [videoID ok]. cbn [fst].
    case_bool_decide; [done|]. by intros [= <- <-].
  - unfold handleSearchVideos. rewrite (assert_string_arg _ "query").
    destruct (assert_string (_ !! "query"%string)) as [query ok]. cbn [fst].
    case_bool_decide; [done|]. cbn. intros [= <- <-].
    rewrite <- (assert_limit_arg _ 10 eq_refl), (assert_string_arg _ "channel_id").
    destruct (assert_string _) as [channelID ok']. cbn [fst].
    destruct (assert_float64 _) as [limit ok'']. unfold SearchVideos.
    by repeat case_bool_decide.
  - unfold handleGetVideoComments. rewrite (assert_string_arg _ "video_id").
    destruct (assert_string (_ !! "video_id"%string)) as [videoID ok]. cbn [fst].
    case_bool_decide; [done|]. cbn. intros [= <- <-].
    rewrite <- (assert_limit_arg _ 20 eq_refl), (assert_string_arg _ "sort_by").
    destruct (assert_string _) as [sortBy ok']. cbn [fst].
    destruct (assert_float64 _) as [limit ok'']. unfold GetVideoComments.
    by repeat case_bool_decide.
Qed.

(** X5. A tools/call that names a known tool and carries its required
    argument, served while no credential is held (the background refresher
    may have dropped it since the gate): the answer is a tool-result error
    whose text sends the user to /oauth/authorize, and the state is as it
    was. With a credential held and a token source that fails, the answer
    is a tool-result error carrying the source's message; the credential is
    kept and no API call is issued. *)
Theorem X5_tool_call_without_client (req : MCPRequest) (st : State)
    (toolParams : ToolsCallParams) (call : ApiCall) (failed : string) :
  Req_Method req = "tools/call"%string →
  decodeParams J (Req_Params req) = inr toolParams →
  expected_call J (Name toolParams) (Arguments toolParams) = Some (call, failed) →
  let token := fresh (dom (heap st)) in
  let asked := (emit (EvToken token) (GetToken st).2).2 in
  (ts_token st = None →
   HandleMCP W J req None st =
     (sendToolError (Req_ID req)
        "API Error: failed to get YouTube service: not authenticated with Google; please visit /oauth/authorize",
      st))
  ∧ (∀ p e, ts_token st = Some p → oauth_Token W asked token = TokErr e →
     HandleMCP W J req None st =
       (sendToolError (Req_ID req)
          ("API Error: failed to get YouTube service: failed to retrieve or refresh token: "
             +:+ e),
        asked)
     ∧ ts_token asked = Some p ∧ calls (trace asked) = calls (trace st)).
Proof.
  intros Hm Hd Hc. cbv zeta.
  rewrite (HandleMCP_tools_call W J req st Hm),
    (handleToolsCall_refines req st toolParams call failed Hd Hc).
  unfold mbind, M_bind. split.
  - intros H. by rewrite (withService_nil call failed st H).
  - intros p e Hp He.
    rewrite (withService_refresh_failed call failed st p e Hp He). split; [done|].
    rewrite (GetToken_copy st p Hp). cbn. split; [done|].
    unfold calls. by rewrite filter_snoc, app_nil_r.
Qed.

(** X6. A tools/call that names a known tool and carries its required
    argument, once the client is obtained: exactly one API call is issued,
    the one the catalog describes (the video id, the query with the channel
    filter when [channel_id] is a non-empty string, the order and the limit
    with their defaults), and the answer is the provider's response as one
    json content item, or a tool-result error with the provider's message
    behind "API Error:" and the method's own message. *)
Theorem X6_tool_call_with_client (req : MCPRequest) (st st1 : State)
    (toolParams : ToolsCallParams) (call : ApiCall) (failed : string)
    (youtubeService : Service) :
  Req_Method req = "tools/call"%string →
  decodeParams J (Req_Params req) = inr toolParams →
  expected_call J (Name toolParams) (Arguments toolParams) = Some (call, failed) →
  GetYouTubeService W st = (inr youtubeService, st1) →
  let asked := (emit (EvDo call) st1).2 in
  HandleMCP W J req None st =
    (match youtube_Do W asked youtubeService call with
     | inl err => sendToolError (Req_ID req) ("API Error: " +:+ failed +:+ ": " +:+ err)
     | inr response => sendToolResult (Req_ID req) response
     end, asked)
  ∧ calls (trace asked) = calls (trace st1) ++ [EvDo call].
Proof.
  intros Hm Hd Hc Hs. cbv zeta.
  rewrite (HandleMCP_tools_call W J req st Hm),
    (handleToolsCall_refines req st toolParams call failed Hd Hc).
  unfold withService, mbind, M_bind. rewrite Hs. unfold Do. run.
  split; [|unfold calls; by rewrite filter_snoc].
  by destruct (youtube_Do W _ _ _).
Qed.

Lemma GetYouTubeService_slot (st : State) :
  ts_token (GetYouTubeService W st).2 = None ↔ ts_token st = None.
Proof.
  unfold GetYouTubeService, mbind, M_bind.
  destruct (ts_token st) as [p|] eqn:E.
  - rewrite (GetToken_copy st p E). run.
    destruct (oauth_Token W _ _) as [|t|err]; cbn; [| |done];
      case_bool_decide; cbn; by destruct (youtube_NewService W _ _).
  - rewrite (GetToken_nil st E). cbn. by rewrite E.
Qed.

Lemma withService_slot (call : ApiCall) (failed : string) (st : State) :
  ts_token (withService W call failed st).2 = None ↔ ts_token st = None.
Proof.
  unfold withService, mbind, M_bind.
  pose proof (GetYouTubeService_slot st) as H.
  destruct (GetYouTubeService W st) as [[err|youtubeService] st1]; cbn in *; [done|].
  unfold Do. run. by destruct (youtube_Do W _ _ _).
Qed.

(** X7. Serving an MCP request neither logs in nor logs out: after
    [HandleMCP], whatever the provider and the API answered, a credential is
    held exactly when one was held before. A refresh that fails on this
    path leaves the credential in place. *)
Theorem X7_request_keeps_session (req : MCPRequest) (err : option error) (st : State) :
  ts_token (HandleMCP W J req err st).2 = None ↔ ts_token st = None.
Proof.
  unfold HandleMCP. destruct err; [done|].
  repeat case_bool_decide; try done.
  unfold handleToolsCall.
  destruct (decodeParams J (Req_Params req)) as [e|toolParams]; [done|].
  repeat case_bool_decide; [| | |done].
  - unfold handleGetVideoMetadata. destruct (assert_string _) as [videoID ok].
    case_bool_decide; [done|]. unfold mbind, M_bind, GetVideoMetadata.
    pose proof (withService_slot (VideosList videoID) "failed to get video metadata" st).
    by destruct (withService W _ _ st).
  - unfold handleSearchVideos. destruct (assert_string (_ !! "query"%string)) as [query ok].
    case_bool_decide; [done|].
    destruct (assert_string _) as [channelID ok']. destruct (assert_float64 _) as [limit ok''].
    unfold mbind, M_bind, SearchVideos.
    match goal with |- context [withService W ?c ?f st] =>
      pose proof (withService_slot c f st); by destruct (withService W c f st) end.
  - unfold handleGetVideoComments.
    destruct (assert_string (_ !! "video_id"%string)) as [videoID ok].
    case_bool_decide; [done|].
    destruct (assert_string _) as [sortBy ok']. destruct (assert_float64 _) as [limit ok''].
    unfold mbind, M_bind, GetVideoComments.
    match goal with |- context [withService W ?c ?f st] =>
      pose proof (withService_slot c f st); by destruct (withService W c f st) end.
Qed.

End Effects.

End effects.

(** ** The limit argument, from float64 to int64 *)

Module limits.
Import service api sample paths token_store session dispatcher.

Section Limits.
Context (W : World) (J : Codec).

Lemma finite_not_zero (s : bool) (m : positive) (e : Z) :
  float64_is_zero (S754_finite s m e) = false.
Proof. by destruct s. Qed.

Lemma int64_below_one (s : bool) (m : positive) (e : Z) :
  (Z.pos m < 2 ^ (- e))%Z → int64 J (S754_finite s m e) = 0%Z.
Proof.
  intros H.
  assert (He : (e < 0)%Z).
  { destruct (Z.lt_ge_cases e 0) as [?|Hge]; [done|].
    destruct (Z.eq_dec e 0%Z) as [->|Hne]; [cbn in H; lia|].
    rewrite Z.pow_neg_r in H by lia. lia. }
  unfold int64. rewrite Z.shiftl_div_pow2 by lia.
  rewrite Z.div_small by lia. by destruct s.
Qed.

(** How the two handlers use the limit they read: it goes to the API
    through [int64], with no other check than the one against zero. *)
Lemma handleSearchVideos_limit (id : value) (name query : string)
    (args : gmap string value) (f : spec_float) (st : State) :
  args !! "query"%string = Some (VString query) → query ≠ ""%string →
  args !! "limit"%string = Some (VFloat64 f) → float64_is_zero f = false →
  handleSearchVideos W J id (mkParams name args) st
  = (r ← SearchVideos W query (assert_string (args !! "channel_id"%string)).1 (int64 J f);
     mret (respond id r)) st.
Proof.
  intros Hq Hne Hl Hz. unfold handleSearchVideos. cbn [Arguments].
  rewrite Hq, Hl. cbn [assert_string assert_float64 negb orb].
  rewrite bool_decide_eq_false_2 by done.
  destruct (assert_string _) as [channelID ok]. by rewrite Hz.
Qed.

Lemma handleGetVideoComments_limit (id : value) (name videoID : string)
    (args : gmap string value) (f : spec_float) (st : State) :
  args !! "video_id"%string = Some (VString videoID) → videoID ≠ ""%string →
  args !! "limit"%string = Some (VFloat64 f) → float64_is_zero f = false →
  handleGetVideoComments W J id (mkParams name args) st
  = (r ← GetVideoComments W videoID
          (if bool_decide ((assert_string (args !! "sort_by"%string)).1 = ""%string)
           then "top"%string else (assert_string (args !! "sort_by"%string)).1)
          (int64 J f);
     mret (respond id r)) st.
Proof.
  intros Hq Hne Hl Hz. unfold handleGetVideoComments. cbn [Arguments].
  rewrite Hq, Hl. cbn [assert_string assert_float64 negb orb].
  rewrite bool_decide_eq_false_2 by done.
  destruct (assert_string _) as [sortBy ok]. by rewrite Hz.
Qed.

(** X8. A [limit] that is a fraction below one in magnitude, such as 0.5,
    is not zero, so no default applies; the conversion to int64 truncates it
    to 0, and both handlers ask the API for 0 results. *)
Theorem X8_fractional_limit (id : value) (name arg : string) (args : gmap string value)
    (s : bool) (m : positive) (e : Z) (st : State) :
  (Z.pos m < 2 ^ (- e))%Z →
  args !! "limit"%string = Some (VFloat64 (S754_finite s m e)) →
  arg ≠ ""%string →
  (args !! "query"%string = Some (VString arg) →
   handleSearchVideos W J id (mkParams name args) st
   = (r ← SearchVideos W arg (assert_string (args !! "channel_id"%string)).1 0;
      mret (respond id r)) st)
  ∧ (args !! "video_id"%string = Some (VString arg) →
     handleGetVideoComments W J id (mkParams name args) st
     = (r ← GetVideoComments W arg
             (if bool_decide ((assert_string (args !! "sort_by"%string)).1 = ""%string)
              then "top"%string else (assert_string (args !! "sort_by"%string)).1)
             0;
        mret (respond id r)) st).
Proof.
  intros Hm Hl Hne. split; intros Ha.
  - rewrite (handleSearchVideos_limit id name arg args _ st Ha Hne Hl (finite_not_zero _ _ _)).
    by rewrite (int64_below_one s m e Hm).
  - rewrite (handleGetVideoComments_limit id name arg args _ st Ha Hne Hl
               (finite_not_zero _ _ _)).
    by rewrite (int64_below_one s m e Hm).
Qed.

(** The float64 nearest to an integer below 2^53 in magnitude is that
    integer: its mantissa is the integer shifted up to 53 bits. *)
Lemma digits2_pos_bounds (m : positive) :
  (2 ^ (Z.pos (digits2_pos m) - 1) ≤ Z.pos m < 2 ^ Z.pos (digits2_pos m))%Z.
Proof.
  induction m as [p IH|p IH|]; cbn [digits2_pos].
  - rewrite Pos2Z.inj_succ.
    replace (Z.succ (Z.pos (digits2_pos p)) - 1)%Z
      with (Z.succ (Z.pos (digits2_pos p) - 1)) by lia.
    rewrite !Z.pow_succ_r by lia. lia.
  - rewrite Pos2Z.inj_succ.
    replace (Z.succ (Z.pos (digits2_pos p)) - 1)%Z
      with (Z.succ (Z.pos (digits2_pos p) - 1)) by lia.
    rewrite !Z.pow_succ_r by lia. lia.
  - cbn. lia.
Qed.

Lemma iter_xO_value (m k : positive) :
  Z.pos (Pos.iter xO m k) = (Z.pos m * 2 ^ Z.pos k)%Z.
Proof.
  induction k as [|k IH] using Pos.peano_ind.
  - cbn. lia.
  - rewrite Pos.iter_succ, Pos2Z.inj_xO, IH, Pos2Z.inj_succ, Z.pow_succ_r by lia. lia.
Qed.

Lemma iter_xO_digits (m k : positive) :
  digits2_pos (Pos.iter xO m k) = (digits2_pos m + k)%positive.
Proof.
  induction k as [|k IH] using Pos.peano_ind.
  - cbn. lia.
  - rewrite Pos.iter_succ. cbn [digits2_pos]. rewrite IH. lia.
Qed.

Lemma binary_round_aux_exact (sx : bool) (m : positive) (e : Z) :
  Z.pos (digits2_pos m) = 53%Z → (-1074 ≤ e ≤ 971)%Z →
  binary_round_aux 53 1024 sx (Z.pos m) e loc_Exact = S754_finite sx m e.
Proof.
  intros Hd He. unfold binary_round_aux, shr_fexp, fexp, emin.
  cbn [Zdigits2 shr_record_of_loc]. rewrite Hd.
  replace (Z.max (53 + e - 53) (3 - 1024 - 53) - e)%Z with 0%Z by lia.
  cbn [shr shr_m loc_of_shr_record round_nearest_even Zdigits2]. rewrite Hd.
  replace (Z.max (53 + e - 53) (3 - 1024 - 53) - e)%Z with 0%Z by lia.
  cbn [shr shr_m].
  destruct (Z.leb_spec e (1024 - 53)); [done|lia].
Qed.

Lemma binary_round_small (sx : bool) (m : positive) :
  (Z.pos m < 2 ^ 53)%Z →
  ∃ m' e, binary_round 53 1024 sx m 0 = S754_finite sx m' e
          ∧ (-52 ≤ e ≤ 0)%Z ∧ Z.pos m' = (Z.pos m * 2 ^ (- e))%Z.
Proof.
  intros Hm. pose proof (digits2_pos_bounds m) as [Hlo Hhi].
  assert (Hd : (Z.pos (digits2_pos m) ≤ 53)%Z).
  { destruct (Z.le_gt_cases (Z.pos (digits2_pos m)) 53) as [?|Hgt]; [done|].
    assert (2 ^ 53 ≤ 2 ^ (Z.pos (digits2_pos m) - 1))%Z by (apply Z.pow_le_mono_r; lia).
    lia. }
  unfold binary_round, shl_align, fexp, emin.
  replace (Z.max (Z.pos (digits2_pos m) + 0 - 53) (3 - 1024 - 53))
    with (Z.pos (digits2_pos m) - 53)%Z by lia.
  destruct (Z.pos (digits2_pos m) - 53 - 0)%Z as [|k|k] eqn:Hk; [|lia|].
  - exists m, 0%Z. rewrite binary_round_aux_exact by lia.
    split; [done|]. split; [lia|]. cbn. lia.
  - exists (Pos.iter xO m k), (Z.pos (digits2_pos m) - 53)%Z.
    rewrite binary_round_aux_exact.
    + split; [done|]. split; [lia|]. rewrite iter_xO_value. f_equal. f_equal. lia.
    + rewrite iter_xO_digits. lia.
    + lia.
Qed.

Lemma float64_const_finite (n : Z) :
  n ≠ 0%Z → (Z.abs n < 2 ^ 53)%Z →
  ∃ s m e, float64_const n = S754_finite s m e ∧ int64 J (S754_finite s m e) = n.
Proof.
  intros Hne Hn. unfold float64_const, binary_normalize.
  destruct n as [|m|m]; [done| |].
  - destruct (binary_round_small false m) as (m' & e & -> & He & Hm'); [lia|].
    eexists _, _, _. split; [done|].
    unfold int64. rewrite Z.shiftl_div_pow2 by lia.
    rewrite Hm', Z.div_mul by (apply Z.pow_nonzero; lia).
    destruct (Z.leb_spec (- 2 ^ 63) (Z.pos m)); [|lia].
    destruct (Z.ltb_spec (Z.pos m) (2 ^ 63)); [done|lia].
  - destruct (binary_round_small true m) as (m' & e & -> & He & Hm'); [lia|].
    eexists _, _, _. split; [done|].
    unfold int64. rewrite Z.shiftl_div_pow2 by lia.
    rewrite Hm', Z.div_mul by (apply Z.pow_nonzero; lia).
    destruct (Z.leb_spec (- 2 ^ 63) (- Z.pos m)); [|lia].
    destruct (Z.ltb_spec (- Z.pos m) (2 ^ 63)); [done|lia].
Qed.

(** X9. A [limit] that is a whole number other than zero, below 2^53 in
    magnitude, reaches the API as that number: the handlers apply no bound,
    so a negative or a very large limit is passed on as it came. *)
Theorem X9_integer_limit (id : value) (name arg : string) (args : gmap string value)
    (n : Z) (st : State) :
  n ≠ 0%Z → (Z.abs n < 2 ^ 53)%Z →
  args !! "limit"%string = Some (VFloat64 (float64_const n)) →
  arg ≠ ""%string →
  (args !! "query"%string = Some (VString arg) →
   handleSearchVideos W J id (mkParams name args) st
   = (r ← SearchVideos W arg (assert_string (args !! "channel_id"%string)).1 n;
      mret (respond id r)) st)
  ∧ (args !! "video_id"%string = Some (VString arg) →
     handleGetVideoComments W J id (mkParams name args) st
     = (r ← GetVideoComments W arg
             (if bool_decide ((assert_string (args !! "sort_by"%string)).1 = ""%string)
              then "top"%string else (assert_string (args !! "sort_by"%string)).1)
             n;
        mret (respond id r)) st).
Proof.
  intros Hn0 Hn Hl Hne.
  destruct (float64_const_finite n Hn0 Hn) as (s & m & e & Hf & Hi).
  rewrite Hf in Hl. split; intros Ha.
  - rewrite (handleSearchVideos_limit id name arg args _ st Ha Hne Hl (finite_not_zero _ _ _)).
    by rewrite Hi.
  - rewrite (handleGetVideoComments_limit id name arg args _ st Ha Hne Hl
               (finite_not_zero _ _ _)).
    by rewrite Hi.
Qed.

End Limits.

End limits.

(** ** The background refresher, beyond one tick *)

Module refresher.
Import service api sample observe token_store session effects.

Section Refresher.
Context (W : World).

Lemma refresher_tick_quiet (f : Event → bool) (st : State) :
  quiet f → filter f (trace (refresher_tick W st).2) = filter f (trace st).
Proof.
  intros (Hlog & Htok & Hset). unfold refresher_tick, mbind, M_bind.
  destruct (ts_token st) as [p|] eqn:E.
  - rewrite (GetToken_copy st p E). run.
    destruct (negb _ || _); [|done].
    destruct (oauth_Token W _ _); cbn;
      rewrite !filter_snoc, ?Hlog, ?Htok, ?Hset; by rewrite ?app_nil_r.
  - by rewrite (GetToken_nil st E).
Qed.

Lemma refresher_loop_quiet (f : Event → bool) (sel : list Select) :
  quiet f → ∀ st, filter f (trace (refresher_loop W sel st).2) = filter f (trace st).
Proof.
  intros Hq. induction sel as [|[|] sel IH]; intros st; [done|done|].
  cbn [refresher_loop]. unfold mbind, M_bind.
  pose proof (refresher_tick_quiet f st Hq) as Ht.
  destruct (refresher_tick W st) as [[] st1]. cbn in Ht. by rewrite IH.
Qed.

(** X10. While no credential is held the refresher is idle: whatever the
    number of ticks, the loop leaves the state exactly as it was. It can
    drop a credential but never brings one back; only a code exchange
    does. *)
Theorem X10_refresher_idle (sel : list Select) (st : State) :
  ts_token st = None → (refresher_loop W sel st).2 = st.
Proof.
  intros H.
  assert (Ht : refresher_tick W st = (tt, st)).
  { unfold refresher_tick, mbind, M_bind. by rewrite (GetToken_nil st H). }
  induction sel as [|[|] sel IH]; [done|done|].
  cbn [refresher_loop]. unfold mbind, M_bind. by rewrite Ht.
Qed.

(** X11. A tick that finds a credential which is valid and whose expiry is
    not before now plus 30 minutes only reads it: nothing is asked and
    nothing is written. A tick that refreshes writes the token holder
    exactly once, also when the token source hands back the very token it
    was given. *)
Theorem X11_tick_writes (st : State) (p : loc) :
  ts_token st = Some p →
  let st1 := (GetToken st).2 in
  let token := fresh (dom (heap st)) in
  let st' := (refresher_tick W st).2 in
  if negb (oauth_Valid W st1 (heap st !!! p))
     || (Expiry (heap st !!! p) <? time_Now W st1 + 30 * Minute)%Z
  then ∃ w, writes (trace st') = writes (trace st) ++ [EvSetToken w]
            ∧ ts_token st' = w
            ∧ (oauth_Token W (emit (EvToken token)
                                (log "Proactively refreshing token..." st1).2).2 token
               = TokSame → w = Some token)
  else st' = st1 ∧ ts_token st' = Some p ∧ trace st' = trace st.
Proof.
  intros Hp. cbv zeta. unfold refresher_tick, mbind, M_bind.
  rewrite (GetToken_copy st p Hp). run. rewrite lookup_total_insert_eq.
  destruct (negb _ || _); [|done].
  destruct (oauth_Token W _ _); cbn; eexists;
    (split; [unfold writes; by rewrite !filter_snoc, ?app_nil_r|]); by split.
Qed.

(** X12. The loop returns exactly when [ctx.Done()] is picked: what comes
    after the first such round is not served, the ticker is stopped exactly
    when the loop has returned, and it is never stopped before. *)
Theorem X12_refresher_stops (sel rest : list Select) (st : State) :
  refresher_loop W (sel ++ CtxDone :: rest) st = refresher_loop W (sel ++ [CtxDone]) st
  ∧ ((TokenRefresher W sel st).1 = true ↔ CtxDone ∈ sel)
  ∧ stops (trace (TokenRefresher W sel st).2)
    = stops (trace st) ++ (if (TokenRefresher W sel st).1 then [EvTickerStop] else []).
Proof.
  split; [|split].
  - revert st. induction sel as [|[|] sel IH]; intros st; [done|done|].
    cbn [app refresher_loop]. unfold mbind, M_bind.
    destruct (refresher_tick W st) as [[] st1]. apply IH.
  - unfold TokenRefresher, mbind, M_bind. run.
    generalize (mkState (heap st) (ts_token st)
      ((trace st ++ [EvLog "background token refresher started"])
         ++ [EvNewTicker tickerPeriod])).
    induction sel as [|[|] sel IH]; intros st0.
    + cbn. split; [done|]. by intros ?%elem_of_nil.
    + cbn. split; [|done]. intros _. by left.
    + cbn [refresher_loop]. unfold mbind, M_bind.
      destruct (refresher_tick W st0) as [[] st1].
      rewrite elem_of_cons. specialize (IH st1).
      destruct (refresher_loop W sel st1) as [[] st2]; cbn in *;
        (split; [intros Hb; right; by apply IH|intros [[=]|Hin]; by apply IH]).
  - unfold TokenRefresher, mbind, M_bind. run.
    pose proof (refresher_loop_quiet is_stop sel (conj (λ _, eq_refl)
                  (conj (λ _, eq_refl) (λ _, eq_refl)))
      (mkState (heap st) (ts_token st)
         ((trace st ++ [EvLog "background token refresher started"])
            ++ [EvNewTicker tickerPeriod]))) as Hl.
    destruct (refresher_loop W sel _) as [[] st2]; cbn in *; unfold stops;
      rewrite ?filter_snoc, Hl, !filter_snoc; cbn; by rewrite ?app_nil_r.
Qed.

(** X13. The refresher talks to the token source only: however long it
    runs, it exchanges no code, builds no client and issues no API call. *)
Theorem X13_refresher_calls_nothing_else (sel : list Select) (st : State) :
  let st' := (TokenRefresher W sel st).2 in
  exchanges (trace st') = exchanges (trace st)
  ∧ clients (trace st') = clients (trace st)
  ∧ calls (trace st') = calls (trace st).
Proof.
  assert (H : ∀ f : Event → bool, quiet f → f (EvNewTicker tickerPeriod) = false →
              f EvTickerStop = false →
              filter f (trace (TokenRefresher W sel st).2) = filter f (trace st)).
  { intros f Hq Hn Hs. unfold TokenRefresher, mbind, M_bind. run.
    pose proof (refresher_loop_quiet f sel Hq
      (mkState (heap st) (ts_token st)
         ((trace st ++ [EvLog "background token refresher started"])
            ++ [EvNewTicker tickerPeriod]))) as Hl.
    destruct Hq as (Hlog & _ & _).
    destruct (refresher_loop W sel _) as [[] st2]; cbn in *;
      rewrite ?filter_snoc, Hl, !filter_snoc, ?Hlog, ?Hn, ?Hs; by rewrite ?app_nil_r. }
  cbv zeta. repeat split; by apply H.
Qed.

End Refresher.

End refresher.

(** ** The OAuth callback and the gate in front of /mcp *)

Module gate.
Import service api sample observe web token_store session effects.

Section Gate.
Context (W : World) (J : Codec).

Lemma IsAuthenticated_run (st : State) :
  IsAuthenticated st = (bool_decide (ts_token st ≠ None), (GetToken st).2).
Proof.
  unfold IsAuthenticated, mbind, M_bind.
  destruct (ts_token st) as [p|] eqn:E.
  - by rewrite (GetToken_copy st p E).
  - rewrite (GetToken_nil st E). by rewrite bool_decide_eq_false_2 by (by intros ?).
Qed.

Lemma RequireAuth_run (next : M Response) (st : State) :
  RequireAuth next st =
    if bool_decide (ts_token st = None) then (sendUnauthorized, st)
    else next (GetToken st).2.
Proof.
  unfold RequireAuth, mbind, M_bind. rewrite IsAuthenticated_run.
  destruct (ts_token st) as [p|] eqn:E.
  - rewrite bool_decide_eq_true_2, bool_decide_eq_false_2 by done. done.
  - rewrite bool_decide_eq_false_2, bool_decide_eq_true_2 by (by try intros ?).
    cbn. by rewrite (GetToken_nil st E).
Qed.

(** X14. The /mcp route. With no credential held the answer is 401 with the
    "unauthorized" JSON body, [HandleMCP] is not run and the state is as it
    was. With a credential held the request reaches [HandleMCP] and the
    answer is 200 with its response as body, also when that response is a
    JSON-RPC error. So the status is 401 exactly when no credential is held,
    and 200 otherwise. *)
Theorem X14_mcp_route (req : MCPRequest) (err : option error) (st : State) :
  let served := route_mcp W J req err st in
  (ts_token st = None → served = (sendUnauthorized, st))
  ∧ (ts_token st ≠ None →
     served.1 = mkHTTP 200 {[ "Content-Type"%string := "application/json"%string ]}
                  (EncodedMCP (HandleMCP W J req err (GetToken st).2).1)
     ∧ served.2 = (HandleMCP W J req err (GetToken st).2).2)
  ∧ (Status served.1 = 401%Z ↔ ts_token st = None)
  ∧ (Status served.1 = 200%Z ↔ ts_token st ≠ None).
Proof.
  cbv zeta. unfold route_mcp. rewrite RequireAuth_run.
  case_bool_decide as H.
  - split; [done|]. split; [done|]. by split.
  - split; [done|]. unfold serveMCP, mbind, M_bind.
    destruct (HandleMCP W J req err (GetToken st).2) as [resp st']. cbn.
    split; [done|]. by split.
Qed.

(** X15. The callback contacts the provider only for a request without
    [error] and with a [code]. An [error] parameter wins over a [code]: the
    answer is 400 with Google's error in the text. Without either the
    answer is 400, "Missing authorization code from Google". In both cases
    the state is as it was. Otherwise the code is exchanged, once. *)
Theorem X15_callback_guards (query : gmap string (list string)) (st : State) :
  let code := Query_Get query "code" in
  let errorParam := Query_Get query "error" in
  let answered := GoogleCallback W query st in
  (errorParam ≠ ""%string →
   answered = (http_Error ("OAuth error from Google: " +:+ errorParam) 400, st))
  ∧ (errorParam = ""%string → code = ""%string →
     answered = (http_Error "Missing authorization code from Google" 400, st))
  ∧ exchanges (trace answered.2)
    = exchanges (trace st)
      ++ (if bool_decide (errorParam = ""%string ∧ code ≠ ""%string)
          then [EvExchange code] else []).
Proof.
  cbv zeta. unfold GoogleCallback.
  case_bool_decide as He.
  - split; [done|]. split; [done|].
    rewrite bool_decide_eq_false_2 by (by intros [? _]). by rewrite app_nil_r.
  - case_bool_decide as Hc.
    + split; [done|]. split; [done|].
      rewrite bool_decide_eq_false_2 by (by intros [_ ?]). by rewrite app_nil_r.
    + split; [done|]. split; [done|].
      rewrite bool_decide_eq_true_2 by done.
      unfold ExchangeCodeForToken. run.
      destruct (oauth_Exchange W _ _); cbn; unfold exchanges;
        by rewrite !filter_snoc, ?app_nil_r.
Qed.

(** X16. A callback without [error] and with a [code] answers by the
    outcome of the exchange. If the provider grants a token, the answer is
    200 with the success page and the token holder holds that token. If the
    provider refuses, the answer is 500 with the provider's error in the
    text, and the token holder is as before: a failed attempt to log in
    again does not end the session that was there. *)
Theorem X16_callback_exchange (query : gmap string (list string)) (st : State) :
  Query_Get query "error" = ""%string →
  Query_Get query "code" ≠ ""%string →
  let code := Query_Get query "code" in
  let answered := GoogleCallback W query st in
  match oauth_Exchange W (emit (EvExchange code) st).2 code with
  | inr t =>
      answered.1 = mkHTTP 200 {[ "Content-Type"%string := "text/html"%string ]}
                     (Written successPage)
      ∧ ∃ q, ts_token answered.2 = Some q ∧ heap answered.2 !! q = Some t
  | inl e =>
      answered.1 = http_Error
                     ("Failed to exchange Google code for token: failed to exchange code for token: "
                        +:+ e) 500
      ∧ ts_token answered.2 = ts_token st ∧ heap answered.2 = heap st
  end.
Proof.
  intros He Hc. cbv zeta. unfold GoogleCallback.
  rewrite bool_decide_eq_false_2 by (by rewrite He; intros ?).
  rewrite bool_decide_eq_false_2 by done.
  unfold ExchangeCodeForToken. run.
  destruct (oauth_Exchange W _ _) as [e|t]; cbn; [done|].
  split; [done|]. eexists. split; [done|]. by rewrite lookup_insert_eq.
Qed.

(** X17. Logging in opens /mcp. Starting with no credential held, a request
    to /mcp served after a callback is answered 200 exactly when that
    callback was answered 200, and 401 otherwise: nothing but a successful
    exchange lets a request through, and a successful exchange always
    does. *)
Theorem X17_login_opens_mcp (query : gmap string (list string)) (req : MCPRequest)
    (err : option error) (st : State) :
  ts_token st = None →
  let after := (GoogleCallback W query st).2 in
  (Status (route_mcp W J req err after).1 = 200%Z
   ↔ Status (GoogleCallback W query st).1 = 200%Z)
  ∧ (Status (route_mcp W J req err after).1 = 401%Z
     ↔ Status (GoogleCallback W query st).1 ≠ 200%Z).
Proof.
  intros Hn. cbv zeta.
  assert (H : ts_token (GoogleCallback W query st).2 ≠ None
              ↔ Status (GoogleCallback W query st).1 = 200%Z).
  { unfold GoogleCallback. repeat case_bool_decide; cbn; [by rewrite Hn..|].
    unfold ExchangeCodeForToken. run.
    destruct (oauth_Exchange W _ _); cbn; [by rewrite Hn|done]. }
  unfold route_mcp. rewrite RequireAuth_run.
  case_bool_decide as Ha.
  - cbn. split; [split; [done|]|split; [|done]].
    + intros Hs. apply H in Hs. done.
    + intros _ Hs. apply H in Hs. done.
  - unfold serveMCP, mbind, M_bind.
    destruct (HandleMCP W J req err _) as [resp st']. cbn.
    split; [split; [|done]|split; [done|]].
    + intros _. by apply H.
    + intros Hs. destruct Hs. by apply H.
Qed.

End Gate.

End gate.

(** ** Configuration and discovery *)

Module startup.
Import service api web metadata config.

Lemma getEnv_empty_is_unset (env : gmap string string) (key k d : string) :
  getEnv (<[key := ""%string]> env) k d = getEnv (delete key env) k d.
Proof.
  unfold getEnv, os_Getenv. destruct (decide (key = k)) as [->|Hne].
  - by rewrite lookup_insert_eq, lookup_delete_eq.
  - by rewrite lookup_insert_ne, lookup_delete_ne.
Qed.

Lemma getEnv_nonempty (env : gmap string string) (k d : string) :
  d ≠ ""%string → getEnv env k d ≠ ""%string.
Proof. intros Hd. unfold getEnv. by case_bool_decide. Qed.

Lemma getEnv_required (env : gmap string string) (k : string) :
  getEnv env k "" = os_Getenv env k.
Proof. unfold getEnv. by case_bool_decide as H. Qed.

(** X18. [Load] returns a configuration exactly when GOOGLE_CLIENT_ID and
    GOOGLE_CLIENT_SECRET are both set and not empty; otherwise the process
    ends, the message naming GOOGLE_CLIENT_ID when that one is missing,
    whatever the secret. No field of a returned configuration is empty.
    A variable set to the empty string counts as not set. *)
Theorem X18_Load (env : gmap string string) (key : string) :
  ((∃ c, Load env = Returns c) ↔
     os_Getenv env "GOOGLE_CLIENT_ID" ≠ ""%string
     ∧ os_Getenv env "GOOGLE_CLIENT_SECRET" ≠ ""%string)
  ∧ (os_Getenv env "GOOGLE_CLIENT_ID" = ""%string →
     Load env = Fatal "GOOGLE_CLIENT_ID environment variable is required")
  ∧ (os_Getenv env "GOOGLE_CLIENT_ID" ≠ ""%string →
     os_Getenv env "GOOGLE_CLIENT_SECRET" = ""%string →
     Load env = Fatal "GOOGLE_CLIENT_SECRET environment variable is required")
  ∧ (∀ c, Load env = Returns c →
     GoogleClientID c ≠ ""%string ∧ GoogleClientSecret c ≠ ""%string
     ∧ GoogleRedirectURI c ≠ ""%string ∧ MCPServerURL c ≠ ""%string
     ∧ Port c ≠ ""%string ∧ Environment c ≠ ""%string)
  ∧ Load (<[key := ""%string]> env) = Load (delete key env).
Proof.
  split; [|split; [|split; [|split]]].
  - unfold Load. cbn [GoogleClientID GoogleClientSecret]. rewrite !getEnv_required.
    repeat case_bool_decide; split; try done; try (by intros [? [=]]);
      try (by intros [? ?]); by eexists.
  - intros H. unfold Load. cbn [GoogleClientID]. rewrite getEnv_required.
    by rewrite bool_decide_eq_true_2.
  - intros H1 H2. unfold Load. cbn [GoogleClientID GoogleClientSecret].
    rewrite !getEnv_required.
    by rewrite bool_decide_eq_false_2, bool_decide_eq_true_2.
  - intros c. unfold Load. cbn [GoogleClientID GoogleClientSecret].
    repeat case_bool_decide; try done. intros [= <-]. cbn.
    repeat split; try done; by apply getEnv_nonempty.
  - unfold Load. by rewrite !getEnv_empty_is_unset.
Qed.

(** X19. The default redirect URI is a constant: when GOOGLE_REDIRECT_URI is
    not set, the configuration sends Google back to port 8080 of localhost,
    whatever PORT and MCP_SERVER_URL say. *)
Theorem X19_default_redirect (env : gmap string string) (port serverURL : string)
    (c : Config) :
  os_Getenv env "GOOGLE_REDIRECT_URI" = ""%string →
  Load (<["PORT"%string := port]> (<["MCP_SERVER_URL"%string := serverURL]> env))
    = Returns c →
  GoogleRedirectURI c = "http://localhost:8080/oauth/callback"%string
  ∧ (port ≠ ""%string → Port c = port)
  ∧ (serverURL ≠ ""%string → MCPServerURL c = serverURL).
Proof.
  intros Hr. unfold Load. cbn [GoogleClientID GoogleClientSecret].
  repeat case_bool_decide; try done. intros [= <-]. cbn.
  unfold getEnv, os_Getenv in *.
  rewrite !lookup_insert_ne by done. rewrite Hr.
  rewrite lookup_insert_eq, lookup_insert_ne, lookup_insert_eq by done. cbn.
  split; [done|]. split; intros Hset; by rewrite bool_decide_eq_true_2.
Qed.

(** X20. The two discovery documents agree: the issuer, the protected
    resource and its one authorization server are all the server URL. The
    authorization endpoint they advertise is a route the server has; the
    token endpoint they advertise, /oauth/token under the server URL, is a
    route it does not have, under any method. *)
Theorem X20_discovery (s : OAuthService) :
  let server := GetAuthServerMetadata s in
  let resource := GetProtectedResourceMetadata s in
  Body (route_authorization_server s) = EncodedValue server
  ∧ Body (route_protected_resource s) = EncodedValue resource
  ∧ server !! "issuer"%string = Some (VString (serverURL s))
  ∧ resource !! "resource"%string = Some (VString (serverURL s))
  ∧ resource !! "authorization_servers"%string = Some (VArray [VString (serverURL s)])
  ∧ (∃ path, server !! "authorization_endpoint"%string
               = Some (VString (serverURL s +:+ path))
             ∧ ("GET"%string, path) ∈ routes)
  ∧ (∃ path, server !! "token_endpoint"%string = Some (VString (serverURL s +:+ path))
             ∧ ∀ method, (method, path) ∉ routes).
Proof.
  cbv zeta. repeat split; try done.
  - exists "/oauth/authorize"%string. split; [done|].
    unfold routes, SetupOAuthRoutes. cbn. by repeat constructor.
  - exists "/oauth/token"%string. split; [done|]. intros method.
    unfold routes, SetupOAuthRoutes. cbn.
    rewrite !not_elem_of_cons, elem_of_nil.
    repeat split; try (by intros [= _ ?]); by intros ?.
Qed.

End startup.

(** ** The properties above on sample runs *)

Module runs.
Import service api sample observe paths inputs web metadata config.
Import token_store session dispatcher envelope effects limits refresher gate startup.

Lemma X4_service_methods_without_client_witness :
  ts_token initial = None
  ∧ ReplyToComment rejecting "Ugx1" "Thanks!" initial =
      (inl "failed to get YouTube service: not authenticated with Google; please visit /oauth/authorize"%string,
       initial).
Proof.
  split; [reflexivity|].
  pose proof (proj1 (X4_service_methods_without_client rejecting initial
                       "Ugx1" "Thanks!" 0%Z) eq_refl) as H.
  cbv zeta in H. apply Forall_cons in H as [_ H]. apply Forall_cons in H as [_ H].
  apply Forall_cons in H as [_ H]. apply Forall_cons in H as [H _]. exact H.
Defined.

Lemma X5_tool_call_without_client_witness :
  let W := world (TokErr "invalid_grant") true 0%Z None in
  let req := call "get_video_metadata" metadata_args in
  Req_Method req = "tools/call"%string
  ∧ decodeParams codec (Req_Params req) = inr (mkParams "get_video_metadata" metadata_args)
  ∧ expected_call codec "get_video_metadata" metadata_args
    = Some (VideosList "kYB8IZa5AuE", "failed to get video metadata"%string)
  ∧ (HandleMCP W codec req None held).1
    = sendToolError (Req_ID req)
        "API Error: failed to get YouTube service: failed to retrieve or refresh token: invalid_grant".
Proof.
  split; [reflexivity|]. split; [reflexivity|]. split; [reflexivity|].
  pose proof (proj2 (X5_tool_call_without_client
                       (world (TokErr "invalid_grant") true 0%Z None) codec
                       (call "get_video_metadata" metadata_args) held
                       (mkParams "get_video_metadata" metadata_args)
                       (VideosList "kYB8IZa5AuE") "failed to get video metadata"
                       eq_refl eq_refl eq_refl)
                1%positive "invalid_grant"%string eq_refl eq_refl) as [H _].
  exact (f_equal fst H).
Defined.

Lemma X6_tool_call_with_client_witness :
  let W := world TokSame true 0%Z None in
  let req := call "get_video_metadata" metadata_args in
  Req_Method req = "tools/call"%string
  ∧ decodeParams codec (Req_Params req) = inr (mkParams "get_video_metadata" metadata_args)
  ∧ (GetYouTubeService W held).1 = inr (mkService 2%positive)
  ∧ (HandleMCP W codec req None held).1 = sendToolResult (Req_ID req) (VString "response").
Proof.
  split; [reflexivity|]. split; [reflexivity|]. split; [reflexivity|].
  pose proof (X6_tool_call_with_client (world TokSame true 0%Z None) codec
                (call "get_video_metadata" metadata_args) held _
                (mkParams "get_video_metadata" metadata_args)
                (VideosList "kYB8IZa5AuE") "failed to get video metadata"
                (mkService 2%positive) eq_refl eq_refl eq_refl eq_refl) as [H _].
  exact (f_equal fst H).
Defined.

Lemma X8_fractional_limit_witness :
  let W := world TokSame true 0%Z None in
  (4503599627370496 < 2 ^ (- -53))%Z
  ∧ search_args half !! "limit"%string = Some (VFloat64 half)
  ∧ handleSearchVideos W codec VNil (mkParams "search_videos" (search_args half)) held
    = (r ← SearchVideos W "Go programming tutorial" "" 0; mret (respond VNil r)) held.
Proof.
  assert (Hm : (4503599627370496 < 2 ^ (- -53))%Z) by reflexivity.
  split; [exact Hm|]. split; [reflexivity|].
  refine (proj1 (X8_fractional_limit (world TokSame true 0%Z None) codec VNil
                   "search_videos" "Go programming tutorial" (search_args half)
                   false 4503599627370496 (-53) held Hm eq_refl _) eq_refl).
  discriminate.
Defined.

Lemma X9_integer_limit_witness :
  let W := world TokSame true 0%Z None in
  (Z.abs 5 < 2 ^ 53)%Z
  ∧ handleSearchVideos W codec VNil
      (mkParams "search_videos" (search_args (float64_const 5))) held
    = (r ← SearchVideos W "Go programming tutorial" "" 5; mret (respond VNil r)) held.
Proof.
  assert (Hn : (Z.abs 5 < 2 ^ 53)%Z) by reflexivity.
  split; [exact Hn|].
  refine (proj1 (X9_integer_limit (world TokSame true 0%Z None) codec VNil
                   "search_videos" "Go programming tutorial"
                   (search_args (float64_const 5)) 5 held _ Hn eq_refl _) eq_refl);
    discriminate.
Defined.

Lemma X10_refresher_idle_witness :
  ts_token initial = None ∧ (refresher_loop rejecting [Tick; Tick; Tick] initial).2 = initial.
Proof.
  split; [reflexivity|].
  apply (X10_refresher_idle rejecting [Tick; Tick; Tick] initial). reflexivity.
Defined.

Lemma X11_tick_writes_witness :
  let W := world TokSame false 0%Z None in
  ts_token held = Some 1%positive
  ∧ ∃ w, writes (trace (refresher_tick W held).2) = writes (trace held) ++ [EvSetToken w]
         ∧ ts_token (refresher_tick W held).2 = w
         ∧ (TokSame = TokSame → w = Some 2%positive).
Proof.
  split; [reflexivity|].
  exact (X11_tick_writes (world TokSame false 0%Z None) held 1%positive eq_refl).
Defined.

Lemma X16_callback_exchange_witness :
  let W := world TokSame true 0%Z None in
  Query_Get callback_query "error" = ""%string
  ∧ Query_Get callback_query "code" ≠ ""%string
  ∧ Status (GoogleCallback W callback_query initial).1 = 200%Z
  ∧ ∃ q, ts_token (GoogleCallback W callback_query initial).2 = Some q
         ∧ heap (GoogleCallback W callback_query initial).2 !! q = Some tokB.
Proof.
  assert (Hc : Query_Get callback_query "code" ≠ ""%string) by discriminate.
  split; [reflexivity|]. split; [exact Hc|].
  pose proof (X16_callback_exchange (world TokSame true 0%Z None) callback_query initial
                eq_refl Hc) as H.
  cbv zeta in H. change (oauth_Exchange _ _ _) with (inr tokB : error + Token) in H.
  destruct H as [H1 H2]. split; [by rewrite H1|exact H2].
Defined.

Lemma X17_login_opens_mcp_witness :
  let W := world TokSame true 0%Z None in
  ts_token initial = None
  ∧ Status (route_mcp W codec list_request None initial).1 = 401%Z
  ∧ Status (route_mcp W codec list_request None
              (GoogleCallback W callback_query initial).2).1 = 200%Z.
Proof.
  split; [reflexivity|]. split; [reflexivity|].
  apply (X17_login_opens_mcp (world TokSame true 0%Z None) codec callback_query
           list_request None initial eq_refl).
  reflexivity.
Defined.

Lemma X19_default_redirect_witness :
  os_Getenv environment "GOOGLE_REDIRECT_URI" = ""%string
  ∧ ∃ c, Load (<["PORT"%string := "9090"%string]>
                 (<["MCP_SERVER_URL"%string := "http://localhost:9090"%string]> environment))
         = Returns c
       ∧ GoogleRedirectURI c = "http://localhost:8080/oauth/callback"%string
       ∧ Port c = "9090"%string.
Proof.
  split; [reflexivity|]. eexists. split; [reflexivity|].
  match goal with |- GoogleRedirectURI ?c = _ ∧ _ =>
    pose proof (X19_default_redirect environment "9090" "http://localhost:9090" c
                  eq_refl eq_refl) as (H1 & H2 & _)
  end.
  split; [exact H1|]. apply H2. discriminate.
Defined.

End runs.

(** ** The refresher and the gate together *)

Module lifecycle.
Import service api sample observe web token_store session effects gate.

Section Lifecycle.
Context (W : World) (J : Codec).

Lemma route_mcp_status (req : MCPRequest) (err : option error) (st : State) :
  Status (route_mcp W J req err st).1 = 401%Z ↔ ts_token st = None.
Proof.
  unfold route_mcp. rewrite RequireAuth_run. case_bool_decide as H; [done|].
  unfold serveMCP, mbind, M_bind.
  by destruct (HandleMCP W J req err (GetToken st).2) as [resp st'].
Qed.

(** X21. A refresh that fails in the background closes /mcp: after a tick
    that found a credential to refresh, the next request to /mcp is
    answered 401 exactly when the token source returned an error on that
    tick; after a tick that obtained a token it is let through. *)
Theorem X21_failed_refresh_closes_mcp (st : State) (p : loc) (req : MCPRequest)
    (err : option error) :
  ts_token st = Some p →
  let st1 := (GetToken st).2 in
  let token := fresh (dom (heap st)) in
  let asked := (emit (EvToken token) (log "Proactively refreshing token..." st1).2).2 in
  negb (oauth_Valid W st1 (heap st !!! p))
  || (Expiry (heap st !!! p) <? time_Now W st1 + 30 * Minute)%Z = true →
  Status (route_mcp W J req err (refresher_tick W st).2).1 = 401%Z
  ↔ ∃ e, oauth_Token W asked token = TokErr e.
Proof.
  intros Hp. cbv zeta. rewrite route_mcp_status.
  unfold refresher_tick, mbind, M_bind.
  rewrite (GetToken_copy st p Hp). run. rewrite lookup_total_insert_eq.
  intros ->. cbn.
  destruct (oauth_Token W _ _) as [|t|e]; cbn.
  - split; [done|by intros [? ?]].
  - split; [done|by intros [? ?]].
  - split; [by eexists|done].
Qed.

End Lifecycle.

Lemma X21_failed_refresh_closes_mcp_witness :
  ts_token held = Some 1%positive
  ∧ Status (route_mcp rejecting codec list_request None
              (refresher_tick rejecting held).2).1 = 401%Z.
Proof.
  split; [reflexivity|].
  apply (X21_failed_refresh_closes_mcp rejecting codec held 1%positive list_request None
           eq_refl eq_refl).
  by eexists.
Defined.

End lifecycle.
